(** * Definition templates: rendering, live-resource resolution, health and status

    A shallow embedding of [pkg/dsl/definition/template.go]: the workload and
    trait renderers ([Complete]), the builders of the template context
    ([getTemplateContext]), the resolver of live resources
    ([getResourceFromObj]) and the evaluators of health and status templates
    ([checkHealth], [getStatusMessage]).

    Conventions of the embedding:
    - a Go return pair [(v, err)] is an [outcome]: every error return of the
      file carries the zero value of [v], so [Err e] stands for [(zero, e)]
      and [Ok v] for [(v, nil)]; a run-time panic (a method call on a nil
      interface, a write to a nil map) is [Panic];
    - Go maps are reference values: a [map[string]string] that a callee
      writes to lives in the [heap] of the [World] and is passed as a
      reference, so a write by the callee is seen by the caller;
    - every read of the cluster and every compilation of a template is
      recorded in the [trace] of the [World];
    - the CUE engine, the JSON encoder, package [model], package [task] and
      the cluster reader are outside this file: they are the fields of the
      records [Env] and [Reader]. *)

From stdpp Require Import gmap strings list fin_maps.

Set Warnings "-register-all".

(** ** Constants of the file *)

Definition OutputFieldName : string := "output".
Definition OutputsFieldName : string := "outputs".
Definition PatchFieldName : string := "patch".
Definition CustomMessage : string := "message".
Definition HealthCheckPolicy : string := "isHealth".
Definition AuxiliaryWorkload : string := "AuxiliaryWorkload".

(** Modelled from the spec: the label keys and values of package [oam], which
    is not part of the sources at hand.  The comments of [template.go] give
    ["app.oam.dev/resourceType"], ["WORKLOAD"] and ["trait.oam.dev/resource"];
    the others follow the same scheme (app-name label, component label,
    trait-type label). *)
Module oam.
Definition LabelAppName : string := "app.oam.dev/name".
Definition LabelAppComponent : string := "app.oam.dev/component".
Definition LabelOAMResourceType : string := "app.oam.dev/resourceType".
Definition ResourceTypeWorkload : string := "WORKLOAD".
Definition TraitTypeLabel : string := "trait.oam.dev/type".
Definition TraitResource : string := "trait.oam.dev/resource".
End oam.

(** ** Data *)

(** JSON-like values: what a [map[string]interface{}] holds. *)
Inductive value : Type :=
| VStr (s : string)
| VBool (b : bool)
| VNull
| VMap (m : gmap string value).

(** [schema.GroupVersionKind]. *)
Record GVK : Type := mkGVK { Group : string; Version : string; Kind : string }.

(** [unstructured.Unstructured], through the accessors the file uses:
    [GetName], [GroupVersionKind], [GetLabels] and the field [Object]. *)
Record Unstructured : Type := mkUnstructured {
  GetName : string;
  GroupVersionKind : GVK;
  GetLabels : gmap string string;
  Object : gmap string value
}.

Inductive Error : Type :=
| ErrNew (msg : string)
    (* errors.New, and the errors of the collaborators *)
| ErrNoResources (gvk : GVK) (labels : gmap string string)
    (* errors.Errorf("no resources found gvk(%v) labels(%v)", ...) *)
| WithMessage (e : Error) (msg : string).
    (* errors.WithMessage / errors.WithMessagef *)

Inductive outcome (A : Type) : Type :=
| Ok (a : A)
| Err (e : Error)
| Panic.
Arguments Ok {A} a.
Arguments Err {A} e.
Arguments Panic {A}.

(** A field of a CUE struct, as [cue.FieldInfo] shows it. *)
Record FieldInfo (V : Type) : Type := mkFieldInfo {
  fiName : string;
  IsDefinition : bool;
  IsHidden : bool;
  IsOptional : bool;
  fiValue : V
}.
Arguments mkFieldInfo {V}.
Arguments fiName {V}.
Arguments IsDefinition {V}.
Arguments IsHidden {V}.
Arguments IsOptional {V}.
Arguments fiValue {V}.

(** A [cue.Value], as far as the file looks into one: whether it exists,
    whether it is a struct (and then its fields in declaration order), a
    boolean or a string. *)
Inductive CueValue : Type :=
| CBottom
    (* the value of a lookup that found nothing *)
| CBool (b : bool)
| CString (s : string)
| CScalar (repr : string)
    (* any other concrete value: a number, null, a list, ... *)
| CStruct (fields : list (FieldInfo CueValue)).

(** [Value.Exists()]. *)
Definition ValueExists (v : CueValue) : bool :=
  match v with CBottom => false | _ => true end.

(** [Value.Struct()]: the fields of a struct, an error for anything else. *)
Definition ValueStruct (v : CueValue) : outcome (list (FieldInfo CueValue)) :=
  match v with
  | CStruct fs => Ok fs
  | _ => Err (ErrNew "not a struct")
  end.

(** [Value.Bool()] and [Value.String()]: an error on a missing field and on a
    value of another kind. *)
Definition ValueBool (v : CueValue) : outcome bool :=
  match v with
  | CBool b => Ok b
  | CBottom => Err (ErrNew "field not found")
  | _ => Err (ErrNew "cannot use value as bool")
  end.

Definition ValueString (v : CueValue) : outcome string :=
  match v with
  | CString s => Ok s
  | CBottom => Err (ErrNew "field not found")
  | _ => Err (ErrNew "cannot use value as string")
  end.

(** A [*cue.Instance]: its evaluation error, if any, and its [Lookup]. *)
Record CueInstance : Type := mkCueInstance {
  InstErr : option Error;
  Lookup : string → CueValue
}.

(** A [model.Instance] wraps an evaluated value. *)
Record Instance : Type := mkInstance { insValue : CueValue }.

(** Modelled from the spec: [process.Auxiliary] and [process.Context] of
    package [process], which is not part of the sources at hand: the context
    owns the Base and an ordered collection of auxiliaries, [SetBase] replaces
    the Base, [PutAuxiliaries] appends, [Output] returns both. *)
Record Auxiliary : Type := mkAuxiliary {
  Ins : Instance;
  Type_ : string;
  Name : string;
  IsOutputs : bool
}.

Record Context : Type := mkContext {
  base : option Instance;
  assists : list Auxiliary;
  BaseContextFile : string;
  BaseContextLabels : gmap string string
}.

Definition SetBase (b : Instance) (ctx : Context) : Context :=
  {| base := Some b; assists := assists ctx;
     BaseContextFile := BaseContextFile ctx;
     BaseContextLabels := BaseContextLabels ctx |}.

Definition PutAuxiliaries (a : Auxiliary) (ctx : Context) : Context :=
  {| base := base ctx; assists := assists ctx ++ [a];
     BaseContextFile := BaseContextFile ctx;
     BaseContextLabels := BaseContextLabels ctx |}.

Definition Output (ctx : Context) : option Instance * list Auxiliary :=
  (base ctx, assists ctx).

(** The collaborators of the renderers: the CUE builder and compiler, the JSON
    encoder, package [model] and package [task]. *)
Record Env : Type := mkEnv {
  AddFile : string → string → option Error;
    (* bi.AddFile(name, source): a parse error, or nil *)
  Build : list (string * string) → CueInstance;
    (* cue.Build of the one build instance holding these files *)
  Compile : string → outcome CueInstance;
    (* r.Compile("-", source) *)
  Marshal : value → outcome string;
    (* json.Marshal *)
  NewBase : CueValue → outcome Instance;
  NewOther : CueValue → outcome Instance;
  ToUnstructured : Instance → outcome Unstructured;
    (* Instance.Unstructured() *)
  Unify : Instance → Instance → outcome Instance;
    (* base.Unify(p): the base after unification, or the conflict *)
  Process : CueInstance → outcome CueInstance
    (* task.Process *)
}.

(** The cluster reader, through the two helpers of package [util] the file
    calls with it. *)
Record Reader : Type := mkReader {
  GetObjectGivenGVKAndName : GVK → string → string → outcome Unstructured;
  GetObjectsGivenGVKAndLabels :
    GVK → string → gmap string string → outcome (list Unstructured)
}.

(** ** State and errors *)

Definition loc : Type := positive.

(** What a call has done that can be observed from outside. *)
Inductive Event : Type :=
| EvGet (gvk : GVK) (ns name : string)
| EvList (gvk : GVK) (ns : string) (labels : gmap string string)
| EvCompile (source : string).

Record World : Type := mkWorld {
  heap : gmap loc (gmap string string);
  trace : list Event
}.

Definition M (S A : Type) : Type := S → outcome A * S.

Definition ret {S A} (a : A) : M S A := λ s, (Ok a, s).

Definition bind {S A B} (c : M S A) (k : A → M S B) : M S B :=
  λ s, match c s with
       | (Ok a, s') => k a s'
       | (Err e, s') => (Err e, s')
       | (Panic, s') => (Panic, s')
       end.

Definition throw {S A} (e : Error) : M S A := λ s, (Err e, s).

Definition lift {S A} (r : outcome A) : M S A := λ s, (r, s).

Definition modify {S} (f : S → S) : M S unit := λ s, (Ok tt, f s).

Definition gets {S A} (f : S → A) : M S A := λ s, (Ok (f s), s).

Notation "'let!' x ':=' c 'in' k" := (bind c (λ x, k))
  (at level 10, x pattern, c at level 100, k at level 200).

(** [errors.WithMessage] around a result. *)
Definition wrapErr {A} (msg : string) (r : outcome A) : outcome A :=
  match r with
  | Err e => Err (WithMessage e msg)
  | _ => r
  end.

Definition record (ev : Event) : M World unit :=
  modify (λ w, {| heap := heap w; trace := trace w ++ [ev] |}).

(** A map reference: [None] is the nil map. *)
Definition mapref : Type := option loc.

(** [make(map[string]string)] filled with [m]. *)
Definition newMap (m : gmap string string) : M World mapref :=
  λ w, let l := fresh (dom (heap w)) in
       (Ok (Some l), {| heap := <[l := m]> (heap w); trace := trace w |}).

(** Reading a map: a nil map reads as the empty map. *)
Definition loadMap (r : mapref) : M World (gmap string string) :=
  λ w, match r with
       | None => (Ok ∅, w)
       | Some l => match heap w !! l with
                   | Some m => (Ok m, w)
                   | None => (Panic, w)
                   end
       end.

(** [r[k] = v]: a write to the nil map panics. *)
Definition storeMap (r : mapref) (k v : string) : M World unit :=
  λ w, match r with
       | None => (Panic, w)
       | Some l => match heap w !! l with
                   | Some m =>
                       (Ok tt, {| heap := <[l := <[k := v]> m]> (heap w);
                                  trace := trace w |})
                   | None => (Panic, w)
                   end
       end.

(** Modelled from the spec: [util.MergeMapOverrideWithDst] of package [util],
    which is not part of the sources at hand: a new map holding the union of
    both, [dst] winning on a key of both.  ([src] is a map literal at every
    call of the file, so the result is never nil.) *)
Definition MergeMapOverrideWithDst (src dst : gmap string string)
  : M World mapref :=
  newMap (dst ∪ src).

(** The two reads of the cluster, recorded in the trace. *)
Definition readByName (cli : Reader) (gvk : GVK) (ns name : string)
  : M World Unstructured :=
  let! _ := record (EvGet gvk ns name) in
  lift (GetObjectGivenGVKAndName cli gvk ns name).

Definition readByLabels (cli : Reader) (gvk : GVK) (ns : string)
    (labels : gmap string string) : M World (list Unstructured) :=
  let! _ := record (EvList gvk ns labels) in
  lift (GetObjectsGivenGVKAndLabels cli gvk ns labels).

(** ** The resolver of live resources *)

(** [v.GetLabels()[oam.TraitResource]]: a missing key reads as [""]. *)
Definition traitResourceOf (v : Unstructured) : string :=
  default "" (GetLabels v !! oam.TraitResource).

(** The scan [for _, v := range list.Items]: the first item whose
    trait-resource label equals [outputsResource]. *)
Fixpoint scanItems (items : list Unstructured) (outputsResource : string)
  : option Unstructured :=
  match items with
  | [] => None
  | v :: rest =>
      if decide (traitResourceOf v = outputsResource) then Some v
      else scanItems rest outputsResource
  end.

Definition getResourceFromObj (obj : Unstructured) (client : Reader)
    (namespace : string) (labels : mapref) (outputsResource : string)
  : M World (gmap string value) :=
  let! _ := (if decide (outputsResource ≠ "")
             then storeMap labels oam.TraitResource outputsResource
             else ret tt) in
  if decide (GetName obj ≠ "") then
    let! u := readByName client (GroupVersionKind obj) namespace (GetName obj) in
    ret (Object u)
  else
    let! lbls := loadMap labels in
    let! items := readByLabels client (GroupVersionKind obj) namespace lbls in
    match items with
    | [v] => ret (Object v)
    | _ =>
        match scanItems items outputsResource with
        | Some v => ret (Object v)
        | None => throw (ErrNoResources (GroupVersionKind obj) lbls)
        end
    end.

(** ** Evaluation of health and status templates *)

Definition newline : string := String (Ascii.ascii_of_nat 10) "".

(** [errors.WithMessage] around a computation. *)
Definition withMessage {S A} (msg : string) (c : M S A) : M S A :=
  λ s, let '(r, s') := c s in (wrapErr msg r, s').

(** [r.Compile("-", buff)], recorded in the trace. *)
Definition compileSource (E : Env) (buff : string) : M World CueInstance :=
  let! _ := record (EvCompile buff) in
  lift (Compile E buff).

Definition checkHealth (E : Env) (templateContext : gmap string value)
    (healthPolicyTemplate : string) : M World bool :=
  let! bt := lift (wrapErr "json marshal template context"
                     (Marshal E (VMap templateContext))) in
  let buff := "context: " +:+ bt +:+ newline +:+ healthPolicyTemplate in
  let! inst := withMessage "compile health template" (compileSource E buff) in
  lift (wrapErr "evaluate health status"
          (ValueBool (Lookup inst HealthCheckPolicy))).

Definition getStatusMessage (E : Env) (templateContext : gmap string value)
    (customStatusTemplate : string) : M World string :=
  let! bt := lift (wrapErr "json marshal template context"
                     (Marshal E (VMap templateContext))) in
  let buff := "context: " +:+ bt +:+ newline +:+ customStatusTemplate in
  let! inst := compileSource E buff in
  lift (ValueString (Lookup inst CustomMessage)).

(** ** The renderers *)

(** The body of [for k, v := range ctx.BaseContextLabels()], the same in both
    renderers: every label goes into [root]; ["appName"] and ["name"] also
    go into [commonLabels]. *)
Definition labelStep (k v : string)
    (acc : gmap string value * gmap string string)
  : gmap string value * gmap string string :=
  let root := <[k := VStr v]> acc.1 in
  if decide (k = "appName") then (root, <[oam.LabelAppName := v]> acc.2)
  else if decide (k = "name") then (root, <[oam.LabelAppComponent := v]> acc.2)
  else (root, acc.2).

Definition labelLoop (labels : gmap string string)
  : gmap string value * gmap string string :=
  map_fold labelStep (∅, ∅) labels.

(** [type def struct]. *)
Record def : Type := mkDef { name : string; params : option value }.

(** The files of a [build.Instance], in the order they were added. *)
Definition addFile (E : Env) (bi : list (string * string)) (fname src : string)
  : outcome (list (string * string)) :=
  match AddFile E fname src with
  | Some err => Err err
  | None => Ok (bi ++ [(fname, src)])
  end.

(** [fmt.Sprintf("parameter: %s", string(bt))] with [bt, _ := json.Marshal(p)]:
    the error of the encoder is dropped and [bt] is then empty. *)
Definition parameterFile (E : Env) (p : value) : string :=
  "parameter: " +:+ match Marshal E p with Ok bt => bt | _ => "" end.

(** The test of [continue] in the loops over the fields of [outputs]. *)
Definition skipped (fieldInfo : FieldInfo CueValue) : bool :=
  IsDefinition fieldInfo || IsHidden fieldInfo || IsOptional fieldInfo.

Module workloadDef.

(** The loop over the fields of [outputs], lines 105-115. *)
Fixpoint outputsFields (E : Env) (wd : def) (st : list (FieldInfo CueValue))
  : M Context unit :=
  match st with
  | [] => ret tt
  | fieldInfo :: rest =>
      if skipped fieldInfo then outputsFields E wd rest
      else
        let! other :=
          lift (wrapErr ("parse WorkloadDefinition " +:+ name wd +:+
                         " outputs(" +:+ fiName fieldInfo +:+ ")")
                  (NewOther E (fiValue fieldInfo))) in
        let! _ := modify (PutAuxiliaries
                    {| Ins := other; Type_ := AuxiliaryWorkload;
                       Name := fiName fieldInfo; IsOutputs := true |}) in
        outputsFields E wd rest
  end.

(** The body of [for _, inst := range insts], lines 91-116. *)
Definition completeInst (E : Env) (wd : def) (inst : CueInstance)
  : M Context unit :=
  match InstErr inst with
  | Some err => throw (WithMessage err ("workloadDef " +:+ name wd +:+ " eval"))
  | None =>
      let output := Lookup inst OutputFieldName in
      let! base := lift (wrapErr ("workloadDef " +:+ name wd +:+ " new base")
                           (NewBase E output)) in
      let! _ := modify (SetBase base) in
      let outputs := Lookup inst OutputsFieldName in
      match ValueStruct outputs with
      | Ok st => outputsFields E wd st
      | _ => ret tt
      end
  end.

Fixpoint completeInsts (E : Env) (wd : def) (insts : list CueInstance)
  : M Context unit :=
  match insts with
  | [] => ret tt
  | inst :: rest =>
      let! _ := completeInst E wd inst in
      completeInsts E wd rest
  end.

Definition Complete (E : Env) (wd : def) (abstractTemplate : string)
  : M Context unit :=
  let! bi := lift (addFile E [] "-" abstractTemplate) in
  let! bi := match params wd with
             | Some p => lift (addFile E bi "parameter" (parameterFile E p))
             | None => ret bi
             end in
  let! file := gets BaseContextFile in
  let! bi := lift (addFile E bi "-" file) in
  completeInsts E wd [Build E bi].

(** The loop over the auxiliaries, lines 149-170. *)
Fixpoint outputsLoop (E : Env) (cli : Reader) (ns : string)
    (commonLabels : gmap string string) (assists : list Auxiliary)
    (root : gmap string value) : M World (gmap string value) :=
  match assists with
  | [] => ret root
  | assist :: rest =>
      if decide (Type_ assist ≠ AuxiliaryWorkload) then
        outputsLoop E cli ns commonLabels rest root
      else if decide (Name assist = "") then
        throw (ErrNew "the auxiliary of workload must have a name with format 'outputs.<my-name>'")
      else
        let! traitRef := lift (ToUnstructured E (Ins assist)) in
        let! labels := MergeMapOverrideWithDst
                         {[ oam.TraitTypeLabel := AuxiliaryWorkload ]}
                         commonLabels in
        let! object := getResourceFromObj traitRef cli ns labels (Name assist) in
        outputsLoop E cli ns commonLabels rest
          (<[OutputsFieldName := VMap {[ Name assist := VMap object ]}]> root)
  end.

(** A method call on the nil Base panics. *)
Definition getTemplateContext (E : Env) (wd : def) (ctx : Context)
    (cli : Reader) (ns : string) : M World (gmap string value) :=
  let '(root, commonLabels) := labelLoop (BaseContextLabels ctx) in
  let '(base, assists) := Output ctx in
  match base with
  | None => lift Panic
  | Some base =>
      let! componentWorkload := lift (ToUnstructured E base) in
      let! labels := MergeMapOverrideWithDst
                       {[ oam.LabelOAMResourceType := oam.ResourceTypeWorkload ]}
                       commonLabels in
      let! object := getResourceFromObj componentWorkload cli ns labels "" in
      outputsLoop E cli ns commonLabels assists
        (<[OutputFieldName := VMap object]> root)
  end.

Definition HealthCheck (E : Env) (wd : def) (ctx : Context) (cli : Reader)
    (ns : string) (healthPolicyTemplate : string) : M World bool :=
  if decide (healthPolicyTemplate = "") then ret true
  else
    let! templateContext :=
      withMessage "get template context" (getTemplateContext E wd ctx cli ns) in
    checkHealth E templateContext healthPolicyTemplate.

Definition Status (E : Env) (wd : def) (ctx : Context) (cli : Reader)
    (ns : string) (customStatusTemplate : string) : M World string :=
  if decide (customStatusTemplate = "") then ret ""
  else
    let! templateContext :=
      withMessage "get template context" (getTemplateContext E wd ctx cli ns) in
    getStatusMessage E templateContext customStatusTemplate.

End workloadDef.

Module traitDef.

(** The loop over the fields of [outputs], lines 293-303. *)
Fixpoint outputsFields (E : Env) (td : def) (st : list (FieldInfo CueValue))
  : M Context unit :=
  match st with
  | [] => ret tt
  | fieldInfo :: rest =>
      if skipped fieldInfo then outputsFields E td rest
      else
        let! other :=
          lift (wrapErr ("traitDef " +:+ name td +:+
                         " new Assists(" +:+ fiName fieldInfo +:+ ")")
                  (NewOther E (fiValue fieldInfo))) in
        let! _ := modify (PutAuxiliaries
                    {| Ins := other; Type_ := name td;
                       Name := fiName fieldInfo; IsOutputs := true |}) in
        outputsFields E td rest
  end.

(** Lines 273-279: the instance goes through [task.Process] when it has a
    field [processing]. *)
Definition processStep (E : Env) (td : def) (inst : CueInstance)
  : M Context CueInstance :=
  let processing := Lookup inst "processing" in
  if ValueExists processing then
    lift (wrapErr ("traitDef " +:+ name td +:+ " build") (Process E inst))
  else ret inst.

(** Lines 281-288. *)
Definition outputStep (E : Env) (td : def) (inst : CueInstance)
  : M Context unit :=
  let output := Lookup inst OutputFieldName in
  if ValueExists output then
    let! other := lift (wrapErr ("traitDef " +:+ name td +:+ " new Assist")
                          (NewOther E output)) in
    modify (PutAuxiliaries
              {| Ins := other; Type_ := name td; Name := ""; IsOutputs := false |})
  else ret tt.

(** Lines 290-304. *)
Definition outputsStep (E : Env) (td : def) (inst : CueInstance)
  : M Context unit :=
  let outputs := Lookup inst OutputsFieldName in
  match ValueStruct outputs with
  | Ok st => outputsFields E td st
  | _ => ret tt
  end.

(** Lines 306-316.  [base.Unify(p)] changes the Base in place; a method
    call on the nil Base panics. *)
Definition patchStep (E : Env) (td : def) (inst : CueInstance)
  : M Context unit :=
  let patcher := Lookup inst PatchFieldName in
  if ValueExists patcher then
    let! base := gets (λ ctx, (Output ctx).1) in
    let! p := lift (wrapErr ("traitDef " +:+ name td +:+ " patcher NewOther")
                      (NewOther E patcher)) in
    match base with
    | None => lift Panic
    | Some b =>
        let! b' := lift (Unify E b p) in
        modify (SetBase b')
    end
  else ret tt.

(** The body of [for _, inst := range insts], lines 267-317. *)
Definition completeInst (E : Env) (td : def) (inst : CueInstance)
  : M Context unit :=
  match InstErr inst with
  | Some err => throw (WithMessage err ("traitDef " +:+ name td +:+ " build"))
  | None =>
      let! inst := processStep E td inst in
      let! _ := outputStep E td inst in
      let! _ := outputsStep E td inst in
      patchStep E td inst
  end.

Fixpoint completeInsts (E : Env) (td : def) (insts : list CueInstance)
  : M Context unit :=
  match insts with
  | [] => ret tt
  | inst :: rest =>
      let! _ := completeInst E td inst in
      completeInsts E td rest
  end.

Definition Complete (E : Env) (td : def) (abstractTemplate : string)
  : M Context unit :=
  let! bi := lift (addFile E [] "-" abstractTemplate) in
  let! bi := match params td with
             | Some p => lift (addFile E bi "parameter" (parameterFile E p))
             | None => ret bi
             end in
  let! file := gets BaseContextFile in
  let! bi := lift (addFile E bi "f" file) in
  completeInsts E td [Build E bi].

(** The loop over the auxiliaries, lines 334-356. *)
Fixpoint outputsLoop (E : Env) (td : def) (cli : Reader) (ns : string)
    (commonLabels : gmap string string) (assists : list Auxiliary)
    (root : gmap string value) : M World (gmap string value) :=
  match assists with
  | [] => ret root
  | assist :: rest =>
      if decide (Type_ assist ≠ name td) then
        outputsLoop E td cli ns commonLabels rest root
      else
        let! traitRef := lift (ToUnstructured E (Ins assist)) in
        let! labels := MergeMapOverrideWithDst
                         {[ oam.TraitTypeLabel := Type_ assist ]}
                         commonLabels in
        let! object := getResourceFromObj traitRef cli ns labels (Name assist) in
        outputsLoop E td cli ns commonLabels rest
          (if IsOutputs assist
           then <[OutputsFieldName := VMap {[ Name assist := VMap object ]}]> root
           else <[OutputFieldName := VMap object]> root)
  end.

Definition getTemplateContext (E : Env) (td : def) (ctx : Context)
    (cli : Reader) (ns : string) : M World (gmap string value) :=
  let '(root, commonLabels) := labelLoop (BaseContextLabels ctx) in
  let '(_, assists) := Output ctx in
  outputsLoop E td cli ns commonLabels assists root.

Definition Status (E : Env) (td : def) (ctx : Context) (cli : Reader)
    (ns : string) (customStatusTemplate : string) : M World string :=
  if decide (customStatusTemplate = "") then ret ""
  else
    let! templateContext :=
      withMessage "get template context" (getTemplateContext E td ctx cli ns) in
    getStatusMessage E templateContext customStatusTemplate.

Definition HealthCheck (E : Env) (td : def) (ctx : Context) (cli : Reader)
    (ns : string) (healthPolicyTemplate : string) : M World bool :=
  if decide (healthPolicyTemplate = "") then ret true
  else
    let! templateContext :=
      withMessage "get template context" (getTemplateContext E td ctx cli ns) in
    checkHealth E templateContext healthPolicyTemplate.

End traitDef.

(** ** A small cluster and a small engine, to run the definitions on *)

Definition podGVK : GVK := {| Group := ""; Version := "v1"; Kind := "Pod" |}.

(** An object of kind Pod with the given name, labels and one field. *)
Definition pod (nm : string) (labels : gmap string string) (tag : string)
  : Unstructured :=
  {| GetName := nm; GroupVersionKind := podGVK; GetLabels := labels;
     Object := {[ "tag" := VStr tag ]} |}.

(** A reader over a fixed answer to every listing; a fetch by name finds an
    object of that name, except for the name ["missing"]. *)
Definition fixedReader (items : list Unstructured) : Reader :=
  {| GetObjectGivenGVKAndName := λ gvk ns nm,
       if decide (nm = "missing") then Err (ErrNew "not found")
       else Ok (pod nm ∅ nm);
     GetObjectsGivenGVKAndLabels := λ gvk ns labels, Ok items |}.

(** An engine that builds the given instance from any files, wraps every
    value but the scalar ["bad"], reads a string value as the name of a Pod,
    and compiles every source to an instance with [isHealth: true] and
    [message] bound to the source. *)
Definition toyEnv (inst : CueInstance) : Env :=
  {| AddFile := λ _ _, None;
     Build := λ _, inst;
     Compile := λ src,
       Ok {| InstErr := None;
             Lookup := λ f, if decide (f = "isHealth") then CBool true
                            else if decide (f = "message") then CString src
                            else CBottom |};
     Marshal := λ _, Ok "{}";
     NewBase := λ v, Ok {| insValue := v |};
     NewOther := λ v, match v with
                      | CScalar "bad" => Err (ErrNew "cannot wrap")
                      | _ => Ok {| insValue := v |}
                      end;
     ToUnstructured := λ i, match insValue i with
                            | CString nm => Ok (pod nm ∅ nm)
                            | _ => Err (ErrNew "not an object")
                            end;
     Unify := λ b p, Ok p;
     Process := λ i, Ok i |}.

Definition emptyInst : CueInstance :=
  {| InstErr := None; Lookup := λ _, CBottom |}.

Definition emptyWorld : World := {| heap := ∅; trace := [] |}.

(** A world holding one label map [{"a": "b"}] at location 1. *)
Definition oneMapWorld : World :=
  {| heap := {[ 1%positive := {[ "a" := "b" ]} ]}; trace := [] |}.

(** ** Definitions used to state the facts *)

(** The label set a resolution works with: the caller's, qualified by the
    name of the outputs resource when there is one. *)
Definition qualified (m : gmap string string) (r : string)
  : gmap string string :=
  if decide (r ≠ "") then <[oam.TraitResource := r]> m else m.

(** What the scan and the test on the length make of a listing. *)
Definition pick (gvk : GVK) (lbls : gmap string string) (r : string)
    (items : list Unstructured) : outcome (gmap string value) :=
  match items with
  | [v] => Ok (Object v)
  | _ => match scanItems items r with
         | Some v => Ok (Object v)
         | None => Err (ErrNoResources gvk lbls)
         end
  end.

(** The result of a resolution and the read it makes, as a function of the
    label set it works with. *)
Definition resolve (obj : Unstructured) (cli : Reader) (ns : string)
    (lbls : gmap string string) (r : string)
  : outcome (gmap string value) * Event :=
  if decide (GetName obj ≠ "") then
    (match GetObjectGivenGVKAndName cli (GroupVersionKind obj) ns (GetName obj) with
     | Ok u => Ok (Object u)
     | Err e => Err e
     | Panic => Panic
     end,
     EvGet (GroupVersionKind obj) ns (GetName obj))
  else
    (match GetObjectsGivenGVKAndLabels cli (GroupVersionKind obj) ns lbls with
     | Ok items => pick (GroupVersionKind obj) lbls r items
     | Err e => Err e
     | Panic => Panic
     end,
     EvList (GroupVersionKind obj) ns lbls).

(** The label sets of the listings a trace records. *)
Definition listedLabels (t : list Event) : list (gmap string string) :=
  omap (λ ev, match ev with EvList _ _ lbls => Some lbls | _ => None end) t.

(** Candidates of the listing whose trait-resource label is bound to a
    non-empty string. *)
Definition labelled (u : Unstructured) : Prop :=
  ∃ s, GetLabels u !! oam.TraitResource = Some s ∧ s ≠ "".

(** Two candidates: the first binds the trait-resource label to the empty
    string, the second has no such label. *)
Definition emptyLabelled : Unstructured :=
  pod "first" {[ oam.TraitResource := "" ]} "first".
Definition unlabelled : Unstructured := pod "second" ∅ "second".

(** The files a renderer hands to the builder: the template, the parameters
    when there are some, the base context under the name [ctxName]. *)
Definition files (E : Env) (d : def) (ctxName t : string) (ctx : Context)
  : list (string * string) :=
  [("-", t)] ++
  match params d with
  | Some p => [("parameter", parameterFile E p)]
  | None => []
  end ++
  [(ctxName, BaseContextFile ctx)].

(** Every file is accepted by [AddFile]. *)
Definition accepted (E : Env) (fs : list (string * string)) : Prop :=
  Forall (λ f, AddFile E f.1 f.2 = None) fs.

(** The fields of [outputs] that are not skipped. *)
Definition kept (st : list (FieldInfo CueValue)) : list (FieldInfo CueValue) :=
  filter (λ f, skipped f = false) st.

(** [auxs] holds, field by field and in the order of the fields, one
    auxiliary of type [ty] for each field of [st] that is not skipped: the
    wrapped value of the field, under the name of the field, marked as an
    output. *)
Definition registers (E : Env) (ty : string) (st : list (FieldInfo CueValue))
    (auxs : list Auxiliary) : Prop :=
  Forall2 (λ f a, NewOther E (fiValue f) = Ok (Ins a) ∧ Type_ a = ty ∧
                  Name a = fiName f ∧ IsOutputs a = true)
          (kept st) auxs.

(** Every field of [st] that is not skipped can be wrapped. *)
Definition wrappable (E : Env) (st : list (FieldInfo CueValue)) : Prop :=
  Forall (λ f, ∃ i, NewOther E (fiValue f) = Ok i) (kept st).

(** The loop over the fields of [outputs], with the type of the auxiliaries
    and the message of the error as parameters: both renderers run it. *)
Fixpoint registerFields (E : Env) (ty : string) (msg : string → string)
    (st : list (FieldInfo CueValue)) : M Context unit :=
  match st with
  | [] => ret tt
  | fieldInfo :: rest =>
      if skipped fieldInfo then registerFields E ty msg rest
      else
        let! other := lift (wrapErr (msg (fiName fieldInfo))
                              (NewOther E (fiValue fieldInfo))) in
        let! _ := modify (PutAuxiliaries
                    {| Ins := other; Type_ := ty;
                       Name := fiName fieldInfo; IsOutputs := true |}) in
        registerFields E ty msg rest
  end.

Definition wdMsg (d : def) (f : string) : string :=
  "parse WorkloadDefinition " +:+ name d +:+ " outputs(" +:+ f +:+ ")".

Definition tdMsg (d : def) (f : string) : string :=
  "traitDef " +:+ name d +:+ " new Assists(" +:+ f +:+ ")".

(** A context with more auxiliaries. *)
Definition withAssists (ctx : Context) (auxs : list Auxiliary) : Context :=
  {| base := base ctx; assists := assists ctx ++ auxs;
     BaseContextFile := BaseContextFile ctx;
     BaseContextLabels := BaseContextLabels ctx |}.

(** An evaluated template: [output] is the Pod ["web"]; [outputs] declares
    three plain fields, a definition and a hidden field. *)
Definition plain (nm v : string) : FieldInfo CueValue :=
  {| fiName := nm; IsDefinition := false; IsHidden := false;
     IsOptional := false; fiValue := CString v |}.

Definition fiveFields : list (FieldInfo CueValue) :=
  [ plain "svc" "svc-obj";
    {| fiName := "#schema"; IsDefinition := true; IsHidden := false;
       IsOptional := false; fiValue := CString "schema" |};
    plain "ing" "ing-obj";
    {| fiName := "_tmp"; IsDefinition := false; IsHidden := true;
       IsOptional := false; fiValue := CString "tmp" |};
    plain "cm" "cm-obj" ].

Definition instOf (st : list (FieldInfo CueValue)) : CueInstance :=
  {| InstErr := None;
     Lookup := λ f, if decide (f = "output") then CString "web"
                    else if decide (f = "outputs") then CStruct st
                    else CBottom |}.

(** A struct whose second field cannot be wrapped. *)
Definition badFields : list (FieldInfo CueValue) :=
  [ plain "svc" "svc-obj";
    {| fiName := "broken"; IsDefinition := false; IsHidden := false;
       IsOptional := false; fiValue := CScalar "bad" |};
    plain "cm" "cm-obj" ].

Definition webDef : def := {| name := "web"; params := None |}.

Definition emptyCtx : Context :=
  {| base := None; assists := []; BaseContextFile := "";
     BaseContextLabels := ∅ |}.

(** The common labels, read off the base-context labels: the app-name label
    from ["appName"], the component label from ["name"]. *)
Definition commonLabelsOf (labels : gmap string string) : gmap string string :=
  let c := match labels !! "appName" with
           | Some v => {[ oam.LabelAppName := v ]}
           | None => ∅
           end in
  match labels !! "name" with
  | Some v => <[oam.LabelAppComponent := v]> c
  | None => c
  end.

(** The context with another list of auxiliaries. *)
Definition setAssists (ctx : Context) (auxs : list Auxiliary) : Context :=
  {| base := base ctx; assists := auxs;
     BaseContextFile := BaseContextFile ctx;
     BaseContextLabels := BaseContextLabels ctx |}.

(** The error of the workload renderer for an auxiliary without a name. *)
Definition errNoName : Error :=
  ErrNew "the auxiliary of workload must have a name with format 'outputs.<my-name>'".

(** The label sets the builders hand to the resolver. *)
Definition workloadLabels (cl : gmap string string) : gmap string string :=
  cl ∪ {[ oam.LabelOAMResourceType := oam.ResourceTypeWorkload ]}.

Definition traitLabels (ty : string) (cl : gmap string string)
  : gmap string string :=
  cl ∪ {[ oam.TraitTypeLabel := ty ]}.

(** The world after one resolution on a fresh copy [lbls] of a label set,
    with the read [ev]. *)
Definition after (w : World) (lbls : gmap string string) (ev : Event) : World :=
  {| heap := <[fresh (dom (heap w)) := lbls]> (heap w);
     trace := trace w ++ [ev] |}.

(** Contexts to run the builders on.  The engine of the examples reads the
    value of an instance as the name of a Pod: an instance holding [""] is an
    object without a name, which the resolver looks for by labels. *)
Definition auxOf (ty nm obj : string) (outputs : bool) : Auxiliary :=
  {| Ins := {| insValue := CString obj |}; Type_ := ty; Name := nm;
     IsOutputs := outputs |}.

Definition ctxOf (auxs : list Auxiliary) : Context :=
  {| base := Some {| insValue := CString "web" |}; assists := auxs;
     BaseContextFile := "";
     BaseContextLabels :=
       {[ "appName" := "shop"; "name" := "web"; "revision" := "v3" ]} |}.

(** The same context under other labels, with the same ["appName"] and
    ["name"]. *)
Definition ctxOf' (auxs : list Auxiliary) : Context :=
  {| base := Some {| insValue := CString "web" |}; assists := auxs;
     BaseContextFile := "";
     BaseContextLabels :=
       {[ "appName" := "shop"; "name" := "web"; "namespace" := "prod" ]} |}.

Definition livePod : Unstructured := pod "live" ∅ "live".

(** A context that already has a Base. *)
Definition priorCtx : Context :=
  {| base := Some {| insValue := CString "old" |}; assists := [];
     BaseContextFile := ""; BaseContextLabels := ∅ |}.

(** The read the builders make for an auxiliary of type [Type_ a]: none
    when the instance of the auxiliary has no unstructured form. *)
Definition readOf (E : Env) (cli : Reader) (ns : string)
    (cl : gmap string string) (a : Auxiliary) : list Event :=
  match ToUnstructured E (Ins a) with
  | Ok ref =>
      [(resolve ref cli ns (qualified (traitLabels (Type_ a) cl) (Name a))
          (Name a)).2]
  | _ => []
  end.

(** The events that are reads of the cluster. *)
Definition isRead (ev : Event) : Prop :=
  match ev with EvCompile _ => False | _ => True end.

(** [NewWorkloadAbstractEngine] and [NewTraitAbstractEngine]: an engine with
    the given name and no parameters. *)
Definition NewWorkloadAbstractEngine (nm : string) : def :=
  {| name := nm; params := None |}.

Definition NewTraitAbstractEngine (nm : string) : def :=
  {| name := nm; params := None |}.

(** [Params], of both renderers: the engine with the given parameters ([None]
    is the nil interface). *)
Definition Params (p : option value) (d : def) : def :=
  {| name := name d; params := p |}.

(** The compilation [HealthCheck] and [Status] make after the builder
    returned [r]: one, of the template under the JSON text of the context,
    when the context was built and encoded; none otherwise. *)
Definition compiledFor (E : Env) (t : string)
    (r : outcome (gmap string value)) : list Event :=
  match r with
  | Ok root =>
      match Marshal E (VMap root) with
      | Ok js => [EvCompile ("context: " +:+ js +:+ newline +:+ t)]
      | _ => []
      end
  | _ => []
  end.

(** The engine of the examples with an encoder that fails, and with a
    compiler that fails. *)
Definition noJsonEnv : Env :=
  {| AddFile := AddFile (toyEnv emptyInst);
     Build := Build (toyEnv emptyInst);
     Compile := Compile (toyEnv emptyInst);
     Marshal := λ _, Err (ErrNew "unsupported value");
     NewBase := NewBase (toyEnv emptyInst);
     NewOther := NewOther (toyEnv emptyInst);
     ToUnstructured := ToUnstructured (toyEnv emptyInst);
     Unify := Unify (toyEnv emptyInst);
     Process := Process (toyEnv emptyInst) |}.

Definition noCompileEnv : Env :=
  {| AddFile := AddFile (toyEnv emptyInst);
     Build := Build (toyEnv emptyInst);
     Compile := λ _, Err (ErrNew "syntax error");
     Marshal := Marshal (toyEnv emptyInst);
     NewBase := NewBase (toyEnv emptyInst);
     NewOther := NewOther (toyEnv emptyInst);
     ToUnstructured := ToUnstructured (toyEnv emptyInst);
     Unify := Unify (toyEnv emptyInst);
     Process := Process (toyEnv emptyInst) |}.

(** Engines of the examples that reject the template, that build an instance
    with an evaluation error, and that cannot wrap the [output]. *)
Definition rejectingEnv : Env :=
  {| AddFile := λ fname src,
       if decide (src = "}") then Some (ErrNew "expected declaration") else None;
     Build := Build (toyEnv emptyInst);
     Compile := Compile (toyEnv emptyInst);
     Marshal := Marshal (toyEnv emptyInst);
     NewBase := NewBase (toyEnv emptyInst);
     NewOther := NewOther (toyEnv emptyInst);
     ToUnstructured := ToUnstructured (toyEnv emptyInst);
     Unify := Unify (toyEnv emptyInst);
     Process := Process (toyEnv emptyInst) |}.

Definition conflictInst : CueInstance :=
  {| InstErr := Some (ErrNew "conflicting values"); Lookup := λ _, CBottom |}.

Definition noBaseEnv (inst : CueInstance) : Env :=
  {| AddFile := AddFile (toyEnv inst);
     Build := Build (toyEnv inst);
     Compile := Compile (toyEnv inst);
     Marshal := Marshal (toyEnv inst);
     NewBase := λ v, match v with
                     | CBottom => Err (ErrNew "value does not exist")
                     | _ => Ok {| insValue := v |}
                     end;
     NewOther := NewOther (toyEnv inst);
     ToUnstructured := ToUnstructured (toyEnv inst);
     Unify := Unify (toyEnv inst);
     Process := Process (toyEnv inst) |}.

(** An evaluated template with an [output] only. *)
Definition outputOnlyInst : CueInstance :=
  {| InstErr := None;
     Lookup := λ f, if decide (f = "output") then CString "web" else CBottom |}.

(** The context [c'] is [c] with more auxiliaries, all of them as [P] says:
    the auxiliaries of [c] are all there, in their order, and the file and
    the labels of the base context are the same. *)
Definition grows (P : Auxiliary → Prop) (c c' : Context) : Prop :=
  BaseContextFile c' = BaseContextFile c ∧
  BaseContextLabels c' = BaseContextLabels c ∧
  ∃ auxs, assists c' = assists c ++ auxs ∧ Forall P auxs.

(** An evaluated template with an [output] and a [patch]. *)
Definition patchInst : CueInstance :=
  {| InstErr := None;
     Lookup := λ f, if decide (f = "output") then CString "web"
                    else if decide (f = "patch") then CString "patched"
                    else CBottom |}.

(** An evaluated template with a [processing] field, and an engine whose
    pre-processing fails. *)
Definition processingInst : CueInstance :=
  {| InstErr := None;
     Lookup := λ f, if decide (f = "processing") then CScalar "http" else CBottom |}.

Definition noProcessEnv : Env :=
  {| AddFile := AddFile (toyEnv processingInst);
     Build := Build (toyEnv processingInst);
     Compile := Compile (toyEnv processingInst);
     Marshal := Marshal (toyEnv processingInst);
     NewBase := NewBase (toyEnv processingInst);
     NewOther := NewOther (toyEnv processingInst);
     ToUnstructured := ToUnstructured (toyEnv processingInst);
     Unify := Unify (toyEnv processingInst);
     Process := λ _, Err (ErrNew "request failed") |}.

(** A step of the proofs about rejected files. *)
Ltac rejected_file :=
  repeat match goal with
         | H : Forall _ (_ :: _) |- _ =>
             inversion H as [|? ? ?Ha ?Hrest]; subst; clear H; simpl in *
         end;
  unfold bind, lift, gets, ret; simpl;
  repeat match goal with
         | H : AddFile _ _ _ = _ |- _ => rewrite H; simpl
         end;
  try done.

(** The filter and the registration in the words of the claim, apart from
    the code: a field is flagged when it is a definition, hidden or
    optional; [declared] keeps the fields without a flag, in their order;
    [collected] says that [auxs] holds, field by field and in that order, one
    auxiliary of type [ty] for each field without a flag and nothing else:
    the wrapped value of the field, under the name of the field, marked as
    an output. *)
Definition flagged (f : FieldInfo CueValue) : Prop :=
  IsDefinition f = true ∨ IsHidden f = true ∨ IsOptional f = true.

Definition declared (st : list (FieldInfo CueValue))
  : list (FieldInfo CueValue) :=
  filter (λ f, ¬ flagged f) st.

Definition collected (E : Env) (ty : string) (st : list (FieldInfo CueValue))
    (auxs : list Auxiliary) : Prop :=
  Forall2 (λ f a, NewOther E (fiValue f) = Ok (Ins a) ∧ Type_ a = ty ∧
                  Name a = fiName f ∧ IsOutputs a = true)
          (declared st) auxs.

(** * Facts *)

(** ** The resolver: facts *)

Lemma getResourceFromObj_run obj cli ns l m r w :
  heap w !! l = Some m →
  getResourceFromObj obj cli ns (Some l) r w =
    ((resolve obj cli ns (qualified m r) r).1,
     {| heap := <[l := qualified m r]> (heap w);
        trace := trace w ++ [(resolve obj cli ns (qualified m r) r).2] |}).
Proof.
  intros Hl. unfold getResourceFromObj, resolve, qualified, bind at 1.
  destruct (decide (r ≠ "")) as [Hr|Hr].
  - unfold storeMap. rewrite Hl.
    destruct (decide (GetName obj ≠ "")).
    + unfold readByName, record, modify, lift, bind, ret; simpl.
      by destruct (GetObjectGivenGVKAndName _ _ _ _).
    + unfold readByLabels, loadMap, record, modify, lift, bind, ret, throw, pick;
        simpl.
      rewrite lookup_insert_eq.
      destruct (GetObjectsGivenGVKAndLabels _ _ _ _) as [items| |]; simpl; try done.
      destruct items as [|v [|v' items]]; simpl; try done;
        repeat case_decide; simpl; try done; by destruct (scanItems _ _).
  - unfold ret at 1. rewrite (insert_id (heap w) l m Hl).
    destruct (decide (GetName obj ≠ "")).
    + unfold readByName, record, modify, lift, bind, ret; simpl.
      by destruct (GetObjectGivenGVKAndName _ _ _ _).
    + unfold readByLabels, loadMap, record, modify, lift, bind, ret, throw, pick;
        simpl.
      rewrite Hl.
      destruct (GetObjectsGivenGVKAndLabels _ _ _ _) as [items| |]; simpl; try done.
      destruct items as [|v [|v' items]]; simpl; try done;
        repeat case_decide; simpl; try done; by destruct (scanItems _ _).
Qed.

(** The scan returns the first item whose label reads as [r]. *)
Lemma scanItems_first pre v post r :
  Forall (λ u, traitResourceOf u ≠ r) pre →
  traitResourceOf v = r →
  scanItems (pre ++ v :: post) r = Some v.
Proof.
  induction 1 as [|u pre Hu _ IH]; intros Hv; simpl.
  - by rewrite decide_True.
  - rewrite decide_False by done. by apply IH.
Qed.

Lemma scanItems_None items r :
  scanItems items r = None ↔ Forall (λ u, traitResourceOf u ≠ r) items.
Proof.
  induction items as [|u items IH]; simpl.
  - split; [constructor|done].
  - case_decide as Hu.
    + split; [done|]. inversion 1; subst. done.
    + rewrite IH. split; [by constructor|by inversion 1].
Qed.

(** A label that reads as the empty string is missing or bound to it. *)
Lemma traitResourceOf_empty v :
  traitResourceOf v = "" ↔
  GetLabels v !! oam.TraitResource = None ∨
  GetLabels v !! oam.TraitResource = Some "".
Proof.
  unfold traitResourceOf.
  destruct (GetLabels v !! oam.TraitResource) as [s|]; simpl.
  - split; [intros ->; by right|]. intros [?|?]; congruence.
  - split; [by left|done].
Qed.

Lemma labelled_iff u : labelled u ↔ traitResourceOf u ≠ "".
Proof.
  rewrite traitResourceOf_empty. unfold labelled.
  destruct (GetLabels u !! oam.TraitResource) as [s|].
  - split.
    + intros (s' & [= <-] & Hs) [?|[= ->]]; done.
    + intros H. exists s. split; [done|]. intros ->. apply H. by right.
  - split; [intros (? & ? & _); done|]. intros H. destruct H. by left.
Qed.

(** ** Claims about the resolver *)

(** C10. A resolution with a non-empty name of the outputs resource writes
    to the label map of its caller: whatever the result, and also when the
    object is fetched by name, the map then binds the trait-resource key to
    that name and holds every other entry it held before; no other map
    changes. *)
Theorem C10_labels_mutated_in_place obj cli ns l m r w :
  r ≠ "" →
  heap w !! l = Some m →
  ∃ m',
    heap (getResourceFromObj obj cli ns (Some l) r w).2 !! l = Some m' ∧
    m' = <[oam.TraitResource := r]> m ∧
    m' !! oam.TraitResource = Some r ∧
    (∀ k, k ≠ oam.TraitResource → m' !! k = m !! k) ∧
    (∀ l', l' ≠ l →
       heap (getResourceFromObj obj cli ns (Some l) r w).2 !! l' = heap w !! l').
Proof.
  intros Hr Hl. rewrite (getResourceFromObj_run _ _ _ _ _ _ _ Hl). simpl.
  unfold qualified. rewrite decide_True by done.
  exists (<[oam.TraitResource := r]> m). split_and!.
  - apply lookup_insert_eq.
  - done.
  - apply lookup_insert_eq.
  - intros k Hk. by apply lookup_insert_ne.
  - intros l' Hl'. by apply lookup_insert_ne.
Qed.

Lemma C10_witness :
  ∃ m',
    heap (getResourceFromObj (pod "web" ∅ "") (fixedReader []) "ns"
            (Some 1%positive) "svc" oneMapWorld).2 !! 1%positive = Some m' ∧
    m' = <[oam.TraitResource := "svc"]> {[ "a" := "b" ]} ∧
    m' !! oam.TraitResource = Some "svc" ∧
    (∀ k, k ≠ oam.TraitResource →
       m' !! k = ({[ "a" := "b" ]} : gmap string string) !! k) ∧
    (∀ l', l' ≠ 1%positive →
       heap (getResourceFromObj (pod "web" ∅ "") (fixedReader []) "ns"
               (Some 1%positive) "svc" oneMapWorld).2 !! l'
       = heap oneMapWorld !! l').
Proof.
  apply (C10_labels_mutated_in_place (pod "web" ∅ "") (fixedReader []) "ns"
           1%positive {[ "a" := "b" ]} "svc" oneMapWorld).
  - discriminate.
  - reflexivity.
Defined.

(** C2, as stated, fails: with the outputs resource ["svc"] the listing is
    asked for the caller's labels and the trait-resource label; with no
    outputs resource it is asked for the caller's labels alone. *)
Lemma C2_counterexample :
  listedLabels (trace (getResourceFromObj (pod "" ∅ "") (fixedReader []) "ns"
                         (Some 1%positive) "svc" oneMapWorld).2)
    = [ <[oam.TraitResource := "svc"]> {[ "a" := "b" ]} ] ∧
  listedLabels (trace (getResourceFromObj (pod "" ∅ "") (fixedReader []) "ns"
                         (Some 1%positive) "" oneMapWorld).2)
    = [ {[ "a" := "b" ]} ] ∧
  (<[oam.TraitResource := "svc"]> {[ "a" := "b" ]} : gmap string string)
    ≠ {[ "a" := "b" ]}.
Proof.
  split_and!.
  - by rewrite (getResourceFromObj_run _ _ _ 1%positive {[ "a" := "b" ]}).
  - by rewrite (getResourceFromObj_run _ _ _ 1%positive {[ "a" := "b" ]}).
  - intros H. apply (f_equal (λ m, m !! oam.TraitResource)) in H.
    rewrite lookup_insert_eq in H. discriminate H.
Qed.

(** C2, amended. When the symbolic object carries no name, the resolver
    makes one read, a listing, and asks it for the caller's label set with
    the trait-resource key bound to the name of the outputs resource; with
    an empty name of the outputs resource it asks for exactly the caller's
    label set. *)
Theorem C2_listing_labels obj cli ns l m r w :
  GetName obj = "" →
  heap w !! l = Some m →
  trace (getResourceFromObj obj cli ns (Some l) r w).2 =
    trace w ++
    [EvList (GroupVersionKind obj) ns
       (if decide (r = "") then m else <[oam.TraitResource := r]> m)].
Proof.
  intros Hn Hl. rewrite (getResourceFromObj_run _ _ _ _ _ _ _ Hl). simpl.
  unfold resolve, qualified. rewrite decide_False by (intros H; by apply H).
  simpl. by repeat case_decide.
Qed.

Lemma C2_witness :
  trace (getResourceFromObj (pod "" ∅ "") (fixedReader []) "ns"
           (Some 1%positive) "svc" oneMapWorld).2 =
    trace oneMapWorld ++
    [EvList (GroupVersionKind (pod "" ∅ "")) "ns"
       (if decide ("svc" = "") then {[ "a" := "b" ]}
        else <[oam.TraitResource := "svc"]> {[ "a" := "b" ]})].
Proof.
  apply (C2_listing_labels (pod "" ∅ "") (fixedReader []) "ns" 1%positive
           {[ "a" := "b" ]} "svc" oneMapWorld); reflexivity.
Defined.

(** C9, as stated, fails: the first candidate whose trait-resource label is
    absent is the second of the listing, and the resolver returns the first,
    whose label is present and empty. *)
Lemma C9_counterexample :
  GetLabels emptyLabelled !! oam.TraitResource = Some "" ∧
  GetLabels unlabelled !! oam.TraitResource = None ∧
  (getResourceFromObj (pod "" ∅ "") (fixedReader [emptyLabelled; unlabelled])
     "ns" (Some 1%positive) "" oneMapWorld).1 = Ok (Object emptyLabelled) ∧
  Object emptyLabelled ≠ Object unlabelled.
Proof.
  split_and!.
  - reflexivity.
  - reflexivity.
  - by rewrite (getResourceFromObj_run _ _ _ 1%positive {[ "a" := "b" ]}).
  - intros H. apply (f_equal (λ m, m !! "tag")) in H.
    unfold emptyLabelled, unlabelled, pod in H. simpl in H.
    rewrite !lookup_singleton_eq in H. discriminate H.
Qed.

(** C9, amended. With an empty name of the outputs resource, an object
    without a name and a listing of two or more candidates, the resolver
    returns the first candidate in list order whose trait-resource label is
    absent or bound to the empty string; it fails, with the error that names
    the kind and the labels, exactly when every candidate binds that label
    to a non-empty string. *)
Theorem C9_first_unlabelled obj cli ns l m w items :
  GetName obj = "" →
  heap w !! l = Some m →
  GetObjectsGivenGVKAndLabels cli (GroupVersionKind obj) ns m = Ok items →
  2 ≤ length items →
  (∀ pre v post,
     items = pre ++ v :: post →
     Forall labelled pre →
     GetLabels v !! oam.TraitResource = None ∨
       GetLabels v !! oam.TraitResource = Some "" →
     (getResourceFromObj obj cli ns (Some l) "" w).1 = Ok (Object v)) ∧
  (Forall labelled items →
     (getResourceFromObj obj cli ns (Some l) "" w).1
       = Err (ErrNoResources (GroupVersionKind obj) m)) ∧
  ((∃ e, (getResourceFromObj obj cli ns (Some l) "" w).1 = Err e) →
     Forall labelled items) ∧
  (getResourceFromObj obj cli ns (Some l) "" w).1 ≠ Panic.
Proof.
  intros Hn Hl Hlist Hlen.
  rewrite (getResourceFromObj_run _ _ _ _ _ _ _ Hl). simpl.
  unfold resolve, qualified.
  rewrite (decide_False (P := "" ≠ "")) by (intros H; by apply H).
  rewrite decide_False by (intros H; by apply H). simpl. rewrite Hlist.
  destruct items as [|a [|b items]]; simpl in Hlen; try lia.
  unfold pick.
  assert (Hlab : ∀ us, Forall labelled us ↔
                       Forall (λ u, traitResourceOf u ≠ "") us).
  { intros us. apply Forall_proper; [|done]. intros u. apply labelled_iff. }
  split_and!.
  - intros pre v post Heq Hpre Hv. rewrite Heq.
    rewrite (scanItems_first pre v post ""); [done| |].
    + by apply Hlab.
    + by apply traitResourceOf_empty.
  - intros Hall. apply Hlab, scanItems_None in Hall. by rewrite Hall.
  - intros [e He]. apply Hlab, scanItems_None.
    by destruct (scanItems (a :: b :: items) "").
  - by destruct (scanItems (a :: b :: items) "").
Qed.

Lemma C9_witness :
  (getResourceFromObj (pod "" ∅ "") (fixedReader [emptyLabelled; unlabelled])
     "ns" (Some 1%positive) "" oneMapWorld).1 = Ok (Object emptyLabelled).
Proof.
  refine (proj1 (C9_first_unlabelled (pod "" ∅ "")
                   (fixedReader [emptyLabelled; unlabelled]) "ns" 1%positive
                   {[ "a" := "b" ]} oneMapWorld [emptyLabelled; unlabelled]
                   _ _ _ _) [] emptyLabelled [unlabelled] _ _ _).
  - reflexivity.
  - reflexivity.
  - reflexivity.
  - simpl. lia.
  - reflexivity.
  - constructor.
  - right. reflexivity.
Defined.

(** ** Claims about health and status *)

(** C4. With an empty template, [HealthCheck] returns [(true, nil)] and
    [Status] returns [("", nil)], for the workload and for the trait
    renderer; the world is left as it was: no label map is made, no read of
    the cluster and no compilation is recorded. *)
Theorem C4_empty_template_short_circuit E d ctx cli ns w :
  workloadDef.HealthCheck E d ctx cli ns "" w = (Ok true, w) ∧
  workloadDef.Status E d ctx cli ns "" w = (Ok "", w) ∧
  traitDef.HealthCheck E d ctx cli ns "" w = (Ok true, w) ∧
  traitDef.Status E d ctx cli ns "" w = (Ok "", w).
Proof. split_and!; reflexivity. Qed.

(** The source text the evaluators compile. *)
Lemma checkHealth_run E root t js w :
  Marshal E (VMap root) = Ok js →
  checkHealth E root t w =
    (match Compile E ("context: " +:+ js +:+ newline +:+ t) with
     | Ok inst => wrapErr "evaluate health status"
                    (ValueBool (Lookup inst HealthCheckPolicy))
     | Err e => Err (WithMessage e "compile health template")
     | Panic => Panic
     end,
     {| heap := heap w;
        trace := trace w ++ [EvCompile ("context: " +:+ js +:+ newline +:+ t)] |}).
Proof.
  intros Hjs. unfold checkHealth, bind, lift, withMessage, compileSource, bind,
    record, modify, lift. rewrite Hjs. simpl.
  by destruct (Compile E _).
Qed.

Lemma getStatusMessage_run E root t js w :
  Marshal E (VMap root) = Ok js →
  getStatusMessage E root t w =
    (match Compile E ("context: " +:+ js +:+ newline +:+ t) with
     | Ok inst => ValueString (Lookup inst CustomMessage)
     | Err e => Err e
     | Panic => Panic
     end,
     {| heap := heap w;
        trace := trace w ++ [EvCompile ("context: " +:+ js +:+ newline +:+ t)] |}).
Proof.
  intros Hjs. unfold getStatusMessage, bind, lift, compileSource, bind,
    record, modify, lift. rewrite Hjs. simpl.
  by destruct (Compile E _).
Qed.

(** C7. With [js] the JSON text of the template context, both evaluators
    compile exactly the source ["context: " + js + "\n" + template], once;
    [checkHealth] returns the boolean bound to [isHealth] and
    [getStatusMessage] the string bound to [message]; when the compiled
    instance has no such field, or binds it to a value of another kind, the
    call returns an error. *)
Theorem C7_evaluator E root t js w :
  Marshal E (VMap root) = Ok js →
  let src := "context: " +:+ js +:+ newline +:+ t in
  trace (checkHealth E root t w).2 = trace w ++ [EvCompile src] ∧
  trace (getStatusMessage E root t w).2 = trace w ++ [EvCompile src] ∧
  (∀ b, (checkHealth E root t w).1 = Ok b ↔
        ∃ inst, Compile E src = Ok inst ∧ Lookup inst "isHealth" = CBool b) ∧
  (∀ s, (getStatusMessage E root t w).1 = Ok s ↔
        ∃ inst, Compile E src = Ok inst ∧ Lookup inst "message" = CString s) ∧
  (∀ inst, Compile E src = Ok inst →
     (∀ b, Lookup inst "isHealth" ≠ CBool b) →
     ∃ e, (checkHealth E root t w).1 = Err e) ∧
  (∀ inst, Compile E src = Ok inst →
     (∀ s, Lookup inst "message" ≠ CString s) →
     ∃ e, (getStatusMessage E root t w).1 = Err e).
Proof.
  intros Hjs src.
  rewrite (checkHealth_run _ _ _ _ _ Hjs), (getStatusMessage_run _ _ _ _ _ Hjs).
  fold src. simpl. split_and!; try done.
  - intros b. destruct (Compile E src) as [inst| |]; simpl.
    + unfold HealthCheckPolicy.
      destruct (Lookup inst "isHealth") eqn:Hf; simpl;
        (split; [intros [= <-] || intros [=] | intros (? & [= <-] & Hb)]);
        try (by eexists); congruence.
    + split; [done|]. by intros (? & ? & _).
    + split; [done|]. by intros (? & ? & _).
  - intros s. destruct (Compile E src) as [inst| |]; simpl.
    + unfold CustomMessage.
      destruct (Lookup inst "message") eqn:Hf; simpl;
        (split; [intros [= <-] || intros [=] | intros (? & [= <-] & Hb)]);
        try (by eexists); congruence.
    + split; [done|]. by intros (? & ? & _).
    + split; [done|]. by intros (? & ? & _).
  - intros inst -> Hno. unfold HealthCheckPolicy.
    destruct (Lookup inst "isHealth") eqn:Hf; simpl; try by eexists.
    by destruct (Hno b).
  - intros inst -> Hno. unfold CustomMessage.
    destruct (Lookup inst "message") eqn:Hf; simpl; try by eexists.
    by destruct (Hno s).
Qed.

(** ** The renderers: facts *)

Lemma withAssists_nil ctx : withAssists ctx [] = ctx.
Proof. destruct ctx. unfold withAssists. simpl. by rewrite app_nil_r. Qed.

Lemma withAssists_put ctx auxs a :
  PutAuxiliaries a (withAssists ctx auxs) = withAssists ctx (auxs ++ [a]).
Proof. unfold PutAuxiliaries, withAssists. simpl. by rewrite app_assoc. Qed.

Lemma withAssists_app ctx xs ys :
  withAssists (withAssists ctx xs) ys = withAssists ctx (xs ++ ys).
Proof. unfold withAssists. simpl. by rewrite app_assoc. Qed.

Lemma wd_outputsFields_eq E d st :
  workloadDef.outputsFields E d st = registerFields E AuxiliaryWorkload (wdMsg d) st.
Proof. induction st as [|f st IH]; simpl; [done|]. by rewrite IH. Qed.

Lemma td_outputsFields_eq E d st :
  traitDef.outputsFields E d st = registerFields E (name d) (tdMsg d) st.
Proof. induction st as [|f st IH]; simpl; [done|]. by rewrite IH. Qed.

(** When every remaining field can be wrapped, the loop succeeds and appends
    one auxiliary per remaining field, in order. *)
Lemma registerFields_ok E ty msg st ctx :
  wrappable E st →
  ∃ auxs, registerFields E ty msg st ctx = (Ok tt, withAssists ctx auxs) ∧
          registers E ty st auxs.
Proof.
  unfold wrappable, registers, kept.
  revert ctx. induction st as [|f st IH]; intros ctx Hw; simpl.
  - exists []. rewrite withAssists_nil. split; [done|constructor].
  - destruct (skipped f) eqn:Hs.
    + rewrite filter_cons_False in Hw by (rewrite Hs; done).
      rewrite filter_cons_False by (rewrite Hs; done). by apply IH.
    + rewrite filter_cons_True in Hw by done.
      rewrite filter_cons_True by done.
      inversion Hw as [|? ? [i Hi] Hw']; subst.
      unfold bind at 1, lift. rewrite Hi. simpl.
      unfold bind at 1, modify.
      pose (a := {| Ins := i; Type_ := ty; Name := fiName f; IsOutputs := true |}).
      destruct (IH (PutAuxiliaries a ctx) Hw') as (auxs & Hrun & Hreg).
      exists (a :: auxs). split.
      * fold a. rewrite Hrun. f_equal.
        unfold withAssists, PutAuxiliaries. simpl. by rewrite <- app_assoc.
      * constructor; [done|done].
Qed.

(** The first remaining field that cannot be wrapped stops the loop with the
    error of the wrapper under the message for that field. *)
Lemma registerFields_fail E ty msg pre f post e ctx :
  wrappable E pre →
  skipped f = false →
  NewOther E (fiValue f) = Err e →
  ∃ auxs, registerFields E ty msg (pre ++ f :: post) ctx
            = (Err (WithMessage e (msg (fiName f))), withAssists ctx auxs) ∧
          registers E ty pre auxs.
Proof.
  unfold wrappable, registers, kept.
  revert ctx. induction pre as [|g pre IH]; intros ctx Hw Hs He; simpl.
  - rewrite Hs. unfold bind, lift. rewrite He. simpl.
    exists []. rewrite withAssists_nil. split; [done|constructor].
  - destruct (skipped g) eqn:Hg.
    + rewrite filter_cons_False in Hw by (rewrite Hg; done).
      rewrite filter_cons_False by (rewrite Hg; done). by apply IH.
    + rewrite filter_cons_True in Hw by done.
      rewrite filter_cons_True by done.
      inversion Hw as [|? ? [i Hi] Hw']; subst.
      unfold bind at 1, lift. rewrite Hi. simpl.
      unfold bind at 1, modify.
      pose (a := {| Ins := i; Type_ := ty; Name := fiName g; IsOutputs := true |}).
      destruct (IH (PutAuxiliaries a ctx) Hw' Hs He) as (auxs & Hrun & Hreg).
      exists (a :: auxs). split.
      * fold a. rewrite Hrun. f_equal.
        unfold withAssists, PutAuxiliaries. simpl. by rewrite <- app_assoc.
      * constructor; [done|done].
Qed.

(** The loop over the fields leaves the Base alone. *)
Lemma registerFields_base E ty msg st ctx :
  base (registerFields E ty msg st ctx).2 = base ctx.
Proof.
  revert ctx. induction st as [|f st IH]; intros ctx; simpl; [done|].
  destruct (skipped f); [apply IH|].
  unfold bind at 1, lift.
  destruct (NewOther E (fiValue f)) as [i| |]; simpl; try done.
  unfold bind at 1, modify. by rewrite IH.
Qed.

(** The build stage of both renderers. *)
Lemma wd_Complete_accepted E d t ctx :
  accepted E (files E d "-" t ctx) →
  workloadDef.Complete E d t ctx =
    workloadDef.completeInsts E d [Build E (files E d "-" t ctx)] ctx.
Proof.
  unfold accepted, files, workloadDef.Complete, addFile.
  destruct (params d) as [p|]; simpl; intros H.
  - inversion H as [|? ? H1 H']; subst. inversion H' as [|? ? H2 H'']; subst.
    inversion H'' as [|? ? H3 _]; subst. simpl in *.
    unfold bind at 1, lift. rewrite H1. simpl.
    unfold bind at 1, lift. rewrite H2. simpl.
    unfold bind at 1, gets. unfold bind at 1, lift. by rewrite H3.
  - inversion H as [|? ? H1 H']; subst. inversion H' as [|? ? H3 _]; subst.
    simpl in *.
    unfold bind at 1, lift. rewrite H1. simpl.
    unfold bind at 1, ret. unfold bind at 1, gets.
    unfold bind at 1, lift. by rewrite H3.
Qed.

Lemma td_Complete_accepted E d t ctx :
  accepted E (files E d "f" t ctx) →
  traitDef.Complete E d t ctx =
    traitDef.completeInsts E d [Build E (files E d "f" t ctx)] ctx.
Proof.
  unfold accepted, files, traitDef.Complete, addFile.
  destruct (params d) as [p|]; simpl; intros H.
  - inversion H as [|? ? H1 H']; subst. inversion H' as [|? ? H2 H'']; subst.
    inversion H'' as [|? ? H3 _]; subst. simpl in *.
    unfold bind at 1, lift. rewrite H1. simpl.
    unfold bind at 1, lift. rewrite H2. simpl.
    unfold bind at 1, gets. unfold bind at 1, lift. by rewrite H3.
  - inversion H as [|? ? H1 H']; subst. inversion H' as [|? ? H3 _]; subst.
    simpl in *.
    unfold bind at 1, lift. rewrite H1. simpl.
    unfold bind at 1, ret. unfold bind at 1, gets.
    unfold bind at 1, lift. by rewrite H3.
Qed.

Lemma bind_ret_unit {S} (c : M S unit) s : bind c (λ _, ret tt) s = c s.
Proof. unfold bind, ret. by destruct (c s) as [[[]| |] s']. Qed.

Lemma wd_completeInsts_one E d inst ctx :
  workloadDef.completeInsts E d [inst] ctx = workloadDef.completeInst E d inst ctx.
Proof. simpl. apply bind_ret_unit. Qed.

Lemma td_completeInsts_one E d inst ctx :
  traitDef.completeInsts E d [inst] ctx = traitDef.completeInst E d inst ctx.
Proof. simpl. apply bind_ret_unit. Qed.

(** A render that returns nil had all its files accepted. *)
Lemma wd_Complete_ok_accepted E d t ctx :
  (workloadDef.Complete E d t ctx).1 = Ok tt →
  accepted E (files E d "-" t ctx).
Proof.
  unfold accepted, files, workloadDef.Complete, addFile.
  unfold bind at 1, lift.
  destruct (AddFile E "-" t) eqn:H1; simpl; [done|].
  destruct (params d) as [p|]; simpl.
  - unfold bind at 1, lift.
    destruct (AddFile E "parameter" (parameterFile E p)) eqn:H2; simpl; [done|].
    unfold bind at 1, gets. unfold bind at 1, lift.
    destruct (AddFile E "-" (BaseContextFile ctx)) eqn:H3; simpl; [done|].
    intros _. by repeat constructor.
  - unfold bind at 1, ret. unfold bind at 1, gets. unfold bind at 1, lift.
    destruct (AddFile E "-" (BaseContextFile ctx)) eqn:H3; simpl; [done|].
    intros _. by repeat constructor.
Qed.

Lemma td_Complete_ok_accepted E d t ctx :
  (traitDef.Complete E d t ctx).1 = Ok tt →
  accepted E (files E d "f" t ctx).
Proof.
  unfold accepted, files, traitDef.Complete, addFile.
  unfold bind at 1, lift.
  destruct (AddFile E "-" t) eqn:H1; simpl; [done|].
  destruct (params d) as [p|]; simpl.
  - unfold bind at 1, lift.
    destruct (AddFile E "parameter" (parameterFile E p)) eqn:H2; simpl; [done|].
    unfold bind at 1, gets. unfold bind at 1, lift.
    destruct (AddFile E "f" (BaseContextFile ctx)) eqn:H3; simpl; [done|].
    intros _. by repeat constructor.
  - unfold bind at 1, ret. unfold bind at 1, gets. unfold bind at 1, lift.
    destruct (AddFile E "f" (BaseContextFile ctx)) eqn:H3; simpl; [done|].
    intros _. by repeat constructor.
Qed.

(** The body of the workload renderer, once the instance is evaluated and
    its [output] wrapped. *)
Lemma wd_completeInst_run E d inst ctx b :
  InstErr inst = None →
  NewBase E (Lookup inst OutputFieldName) = Ok b →
  workloadDef.completeInst E d inst ctx =
    match ValueStruct (Lookup inst OutputsFieldName) with
    | Ok st => registerFields E AuxiliaryWorkload (wdMsg d) st (SetBase b ctx)
    | _ => (Ok tt, SetBase b ctx)
    end.
Proof.
  intros He Hb. unfold workloadDef.completeInst. rewrite He.
  unfold bind at 1, lift. rewrite Hb. simpl. unfold bind at 1, modify.
  destruct (ValueStruct _); [|done..]. by rewrite wd_outputsFields_eq.
Qed.

(** The steps of the trait renderer and the state. *)
Lemma td_processStep_state E d inst ctx :
  (traitDef.processStep E d inst ctx).2 = ctx.
Proof. unfold traitDef.processStep. by destruct (ValueExists _). Qed.

Lemma td_outputStep_base E d inst ctx :
  base (traitDef.outputStep E d inst ctx).2 = base ctx.
Proof.
  unfold traitDef.outputStep. destruct (ValueExists _); [|done].
  unfold bind, lift. by destruct (NewOther E _).
Qed.

Lemma td_outputsStep_base E d inst ctx :
  base (traitDef.outputsStep E d inst ctx).2 = base ctx.
Proof.
  unfold traitDef.outputsStep. destruct (ValueStruct _); [|done..].
  rewrite td_outputsFields_eq. apply registerFields_base.
Qed.

Lemma td_patchStep_assists E d inst ctx :
  assists (traitDef.patchStep E d inst ctx).2 = assists ctx.
Proof.
  unfold traitDef.patchStep. destruct (ValueExists _); [|done].
  unfold bind at 1, gets. simpl. unfold bind at 1, lift.
  destruct (NewOther E _); simpl; [|done..].
  destruct (base ctx); [|done]. unfold bind, lift, modify.
  by destruct (Unify E _ _).
Qed.

(** What the step for [output] does, case by case. *)
Lemma td_outputStep_run E d inst ctx :
  traitDef.outputStep E d inst ctx =
    if ValueExists (Lookup inst OutputFieldName) then
      match NewOther E (Lookup inst OutputFieldName) with
      | Ok other =>
          (Ok tt, withAssists ctx
                    [{| Ins := other; Type_ := name d; Name := "";
                        IsOutputs := false |}])
      | Err e => (Err (WithMessage e ("traitDef " +:+ name d +:+ " new Assist")), ctx)
      | Panic => (Panic, ctx)
      end
    else (Ok tt, ctx).
Proof.
  unfold traitDef.outputStep. destruct (ValueExists _); [|done].
  unfold bind, lift. by destruct (NewOther E _).
Qed.

(** The body of the trait renderer, once the instance is evaluated and
    processed. *)
Lemma td_completeInst_run E d inst0 inst ctx :
  InstErr inst0 = None →
  (traitDef.processStep E d inst0 ctx).1 = Ok inst →
  traitDef.completeInst E d inst0 ctx =
    (let! _ := traitDef.outputStep E d inst in
     let! _ := traitDef.outputsStep E d inst in
     traitDef.patchStep E d inst) ctx.
Proof.
  intros He Hp. unfold traitDef.completeInst. rewrite He.
  unfold bind at 1.
  pose proof (td_processStep_state E d inst0 ctx) as Hs.
  destruct (traitDef.processStep E d inst0 ctx) as [r c]. simpl in *. by subst.
Qed.

(** ** Claims about the renderers *)

(** The filter of the loops is the filter of the claim: a field is passed
    over exactly when one of its three flags is set. *)
Lemma skipped_flagged f : skipped f = true ↔ flagged f.
Proof.
  unfold skipped, flagged.
  destruct (IsDefinition f), (IsHidden f), (IsOptional f); simpl;
    split; try done; try (intros [?|[?|?]]; done); auto.
Qed.

Lemma skipped_unflagged f : skipped f = false ↔ ¬ flagged f.
Proof.
  rewrite <- skipped_flagged. by destruct (skipped f).
Qed.

Lemma kept_declared st : kept st = declared st.
Proof.
  unfold kept, declared. apply list_filter_iff. intros f.
  apply skipped_unflagged.
Qed.

(** C5. When the [outputs] field of the evaluated template is a struct,
    [Complete] registers, after the auxiliaries the context already has, one
    auxiliary for each field whose flags [IsDefinition], [IsHidden] and
    [IsOptional] are all unset, in the order of the fields, marked as an
    output and named as the field, and none for a field with one of the three
    flags set; the first field without a flag that cannot be wrapped makes
    the call return the error of the wrapper under a message that carries
    the name of that field.  The same holds for the workload renderer (type
    [AuxiliaryWorkload]) and for the trait renderer (type: the name of the
    trait). *)
Theorem C5_outputs_collected E d t ctx st :
  (let inst := Build E (files E d "-" t ctx) in
   accepted E (files E d "-" t ctx) →
   InstErr inst = None →
   ∀ b, NewBase E (Lookup inst "output") = Ok b →
   Lookup inst "outputs" = CStruct st →
   ((∀ f, f ∈ st → ¬ flagged f → ∃ i, NewOther E (fiValue f) = Ok i) →
    ∃ auxs,
      workloadDef.Complete E d t ctx = (Ok tt, withAssists (SetBase b ctx) auxs) ∧
      collected E AuxiliaryWorkload st auxs) ∧
   (∀ pre f post e,
      st = pre ++ f :: post →
      (∀ g, g ∈ pre → ¬ flagged g → ∃ i, NewOther E (fiValue g) = Ok i) →
      ¬ flagged f →
      NewOther E (fiValue f) = Err e →
      (workloadDef.Complete E d t ctx).1 =
        Err (WithMessage e ("parse WorkloadDefinition " +:+ name d +:+
                            " outputs(" +:+ fiName f +:+ ")")))) ∧
  (let inst0 := Build E (files E d "f" t ctx) in
   accepted E (files E d "f" t ctx) →
   InstErr inst0 = None →
   ∀ inst, (traitDef.processStep E d inst0 ctx).1 = Ok inst →
   ∀ ctx1, traitDef.outputStep E d inst ctx = (Ok tt, ctx1) →
   Lookup inst "outputs" = CStruct st →
   ((∀ f, f ∈ st → ¬ flagged f → ∃ i, NewOther E (fiValue f) = Ok i) →
    ∃ auxs,
      assists (traitDef.Complete E d t ctx).2 = assists ctx1 ++ auxs ∧
      collected E (name d) st auxs) ∧
   (∀ pre f post e,
      st = pre ++ f :: post →
      (∀ g, g ∈ pre → ¬ flagged g → ∃ i, NewOther E (fiValue g) = Ok i) →
      ¬ flagged f →
      NewOther E (fiValue f) = Err e →
      (traitDef.Complete E d t ctx).1 =
        Err (WithMessage e ("traitDef " +:+ name d +:+
                            " new Assists(" +:+ fiName f +:+ ")")))).
Proof.
  assert (Hwrap : ∀ fs,
            (∀ f, f ∈ fs → ¬ flagged f → ∃ i, NewOther E (fiValue f) = Ok i) →
            wrappable E fs).
  { intros fs Hfs. unfold wrappable. rewrite kept_declared. unfold declared.
    apply Forall_forall. intros f Hin.
    apply list_elem_of_filter in Hin as [Hf Hin]. by apply Hfs. }
  assert (Hcoll : ∀ ty fs auxs, registers E ty fs auxs → collected E ty fs auxs).
  { intros ty fs auxs. unfold registers, collected. by rewrite kept_declared. }
  split.
  - intros inst Hacc Herr b Hb Hst.
    rewrite (wd_Complete_accepted _ _ _ _ Hacc), wd_completeInsts_one.
    fold inst. rewrite (wd_completeInst_run _ _ _ _ b Herr Hb).
    unfold OutputsFieldName. rewrite Hst. simpl. split.
    + intros Hw.
      destruct (registerFields_ok E AuxiliaryWorkload (wdMsg d) st
                  (SetBase b ctx) (Hwrap st Hw)) as (auxs & Hrun & Hreg).
      exists auxs. split; [done|]. by apply Hcoll.
    + intros pre f post e -> Hw Hs He.
      apply skipped_unflagged in Hs.
      destruct (registerFields_fail E AuxiliaryWorkload (wdMsg d) pre f post e
                  (SetBase b ctx) (Hwrap pre Hw) Hs He) as (auxs & -> & _).
      done.
  - intros inst0 Hacc Herr inst Hp ctx1 Ho Hst.
    rewrite (td_Complete_accepted _ _ _ _ Hacc), td_completeInsts_one.
    fold inst0. rewrite (td_completeInst_run _ _ _ inst _ Herr Hp).
    assert (Hrun : ∀ k : unit → M Context unit,
              (let! _ := traitDef.outputStep E d inst in
               let! x := traitDef.outputsStep E d inst in k x) ctx
              = (let! x := registerFields E (name d) (tdMsg d) st in k x) ctx1).
    { intros k. unfold bind at 1. rewrite Ho.
      unfold traitDef.outputsStep, OutputsFieldName. rewrite Hst. simpl.
      by rewrite td_outputsFields_eq. }
    rewrite Hrun. clear Hrun. unfold bind. split.
    + intros Hw.
      destruct (registerFields_ok E (name d) (tdMsg d) st ctx1 (Hwrap st Hw))
        as (auxs & -> & Hreg).
      exists auxs. split; [|by apply Hcoll]. by rewrite td_patchStep_assists.
    + intros pre f post e -> Hw Hs He.
      apply skipped_unflagged in Hs.
      destruct (registerFields_fail E (name d) (tdMsg d) pre f post e
                  ctx1 (Hwrap pre Hw) Hs He) as (auxs & -> & _).
      done.
Qed.

Lemma C5_witness :
  ∃ auxs,
    workloadDef.Complete (toyEnv (instOf fiveFields)) webDef "template" emptyCtx
      = (Ok tt, withAssists (SetBase {| insValue := CString "web" |} emptyCtx) auxs) ∧
    collected (toyEnv (instOf fiveFields)) AuxiliaryWorkload fiveFields auxs.
Proof.
  refine (proj1 (proj1 (C5_outputs_collected (toyEnv (instOf fiveFields)) webDef
                          "template" emptyCtx fiveFields)
                   _ _ {| insValue := CString "web" |} _ _) _).
  - repeat constructor.
  - reflexivity.
  - reflexivity.
  - reflexivity.
  - intros f Hin Hf. unfold fiveFields in Hin.
    repeat (apply elem_of_cons in Hin as [->|Hin];
            [first [eexists; reflexivity
                   | destruct Hf; unfold flagged; simpl; auto]|]).
    by apply elem_of_nil in Hin.
Defined.

(** On the struct of the example the auxiliaries are those of the three
    fields without a flag, in their order: none for the definition, none for
    the hidden field. *)
Example collected_fiveFields auxs :
  collected (toyEnv (instOf fiveFields)) AuxiliaryWorkload fiveFields auxs ↔
  auxs = [ auxOf AuxiliaryWorkload "svc" "svc-obj" true;
           auxOf AuxiliaryWorkload "ing" "ing-obj" true;
           auxOf AuxiliaryWorkload "cm" "cm-obj" true ].
Proof.
  unfold collected. split.
  - intros H. change (declared fiveFields)
      with [plain "svc" "svc-obj"; plain "ing" "ing-obj"; plain "cm" "cm-obj"] in H.
    repeat match goal with
           | H : Forall2 _ (_ :: _) _ |- _ =>
               apply Forall2_cons_inv_l in H as (? & ? & (? & ? & ? & ?) & ? & ->)
           | H : Forall2 _ [] _ |- _ => apply Forall2_nil_inv_l in H as ->
           end.
    repeat match goal with a : Auxiliary |- _ => destruct a end.
    simpl in *. by simplify_eq.
  - intros ->. repeat constructor.
Qed.

(** The struct of the example yields the three plain fields, in order. *)
Example Complete_fiveFields :
  map Name (assists (workloadDef.Complete (toyEnv (instOf fiveFields)) webDef
                       "template" emptyCtx).2) = ["svc"; "ing"; "cm"] ∧
  map Name (assists (traitDef.Complete (toyEnv (instOf fiveFields)) webDef
                       "template" emptyCtx).2) = [""; "svc"; "ing"; "cm"].
Proof. split; reflexivity. Qed.

(** The struct with a field that cannot be wrapped stops both renderers. *)
Example Complete_badFields :
  (workloadDef.Complete (toyEnv (instOf badFields)) webDef "template" emptyCtx).1
    = Err (WithMessage (ErrNew "cannot wrap")
             "parse WorkloadDefinition web outputs(broken)") ∧
  (traitDef.Complete (toyEnv (instOf badFields)) webDef "template" emptyCtx).1
    = Err (WithMessage (ErrNew "cannot wrap") "traitDef web new Assists(broken)").
Proof. split; reflexivity. Qed.

(** Whatever the fields, the loop only appends auxiliaries marked as
    outputs. *)
Lemma registerFields_assists E ty msg st ctx :
  ∃ auxs, (registerFields E ty msg st ctx).2 = withAssists ctx auxs ∧
          Forall (λ a, IsOutputs a = true) auxs.
Proof.
  revert ctx. induction st as [|f st IH]; intros ctx; simpl.
  - exists []. by rewrite withAssists_nil.
  - destruct (skipped f); [apply IH|].
    unfold bind at 1, lift.
    destruct (NewOther E (fiValue f)) as [i| |]; simpl;
      try (exists []; by rewrite withAssists_nil).
    unfold bind at 1, modify.
    destruct (IH (PutAuxiliaries
                    {| Ins := i; Type_ := ty; Name := fiName f; IsOutputs := true |}
                    ctx)) as (auxs & -> & Hall).
    eexists (_ :: auxs). split.
    + unfold withAssists, PutAuxiliaries. simpl. by rewrite <- app_assoc.
    + by constructor.
Qed.

Lemma wd_completeInst_ok E d inst ctx :
  (workloadDef.completeInst E d inst ctx).1 = Ok tt →
  ∃ b, NewBase E (Lookup inst "output") = Ok b ∧
       base (workloadDef.completeInst E d inst ctx).2 = Some b.
Proof.
  destruct (InstErr inst) as [e|] eqn:He.
  { unfold workloadDef.completeInst. by rewrite He. }
  destruct (NewBase E (Lookup inst OutputFieldName)) as [b| |] eqn:Hb.
  - rewrite (wd_completeInst_run _ _ _ _ b He Hb). intros _. exists b.
    split; [done|].
    destruct (ValueStruct _); [|done..]. by rewrite registerFields_base.
  - unfold workloadDef.completeInst. rewrite He. unfold bind, lift.
    by rewrite Hb.
  - unfold workloadDef.completeInst. rewrite He. unfold bind, lift.
    by rewrite Hb.
Qed.

Lemma td_outputsStep_assists E d inst ctx :
  ∃ auxs, (traitDef.outputsStep E d inst ctx).2 = withAssists ctx auxs ∧
          Forall (λ a, IsOutputs a = true) auxs.
Proof.
  unfold traitDef.outputsStep.
  destruct (ValueStruct _); try (exists []; by rewrite withAssists_nil).
  rewrite td_outputsFields_eq. apply registerFields_assists.
Qed.

Lemma td_patchStep_base E d inst ctx :
  ValueExists (Lookup inst "patch") = false →
  base (traitDef.patchStep E d inst ctx).2 = base ctx.
Proof. intros H. unfold traitDef.patchStep, PatchFieldName. by rewrite H. Qed.

(** C6. A render of the workload renderer that returns nil has wrapped the
    [output] field of the evaluated template and left it as the Base of the
    context, whatever the Base was before.  A render of the trait renderer
    that returns nil, when the evaluated (and processed) template has an
    [output] field, has registered it as one auxiliary with the name of the
    trait as type, the empty name and [IsOutputs = false], before the
    auxiliaries of [outputs]; the step that does so leaves the Base alone,
    and the Base after the render is the Base before it unless the template
    has a [patch] field. *)
Theorem C6_output_is_base_or_auxiliary E d t ctx :
  ((workloadDef.Complete E d t ctx).1 = Ok tt →
   ∃ b, NewBase E (Lookup (Build E (files E d "-" t ctx)) "output") = Ok b ∧
        base (workloadDef.Complete E d t ctx).2 = Some b) ∧
  ((traitDef.Complete E d t ctx).1 = Ok tt →
   ∃ inst,
     (traitDef.processStep E d (Build E (files E d "f" t ctx)) ctx).1 = Ok inst ∧
     (ValueExists (Lookup inst "output") = true →
      ∃ other rest,
        NewOther E (Lookup inst "output") = Ok other ∧
        assists (traitDef.Complete E d t ctx).2 =
          assists ctx ++
          {| Ins := other; Type_ := name d; Name := ""; IsOutputs := false |}
            :: rest ∧
        Forall (λ a, IsOutputs a = true) rest) ∧
     (ValueExists (Lookup inst "output") = false →
      ∃ rest,
        assists (traitDef.Complete E d t ctx).2 = assists ctx ++ rest ∧
        Forall (λ a, IsOutputs a = true) rest) ∧
     (∀ c, base (traitDef.outputStep E d inst c).2 = base c) ∧
     (ValueExists (Lookup inst "patch") = false →
      base (traitDef.Complete E d t ctx).2 = base ctx)).
Proof.
  split.
  - intros Hok. pose proof (wd_Complete_ok_accepted _ _ _ _ Hok) as Hacc.
    revert Hok. rewrite (wd_Complete_accepted _ _ _ _ Hacc), wd_completeInsts_one.
    apply wd_completeInst_ok.
  - intros Hok. pose proof (td_Complete_ok_accepted _ _ _ _ Hok) as Hacc.
    revert Hok. rewrite (td_Complete_accepted _ _ _ _ Hacc), td_completeInsts_one.
    set (inst0 := Build E (files E d "f" t ctx)).
    destruct (InstErr inst0) as [e|] eqn:He.
    { unfold traitDef.completeInst. by rewrite He. }
    destruct ((traitDef.processStep E d inst0 ctx).1) as [inst| |] eqn:Hp.
    2,3: unfold traitDef.completeInst; rewrite He; unfold bind at 1;
         pose proof (td_processStep_state E d inst0 ctx) as Hs;
         destruct (traitDef.processStep E d inst0 ctx) as [r c];
         simpl in *; subst; done.
    rewrite (td_completeInst_run _ _ _ inst _ He Hp). intros Hok.
    exists inst. split; [done|].
    unfold bind in Hok |- *.
    rewrite td_outputStep_run in Hok |- *. unfold OutputFieldName in *.
    destruct (ValueExists (Lookup inst "output")) eqn:Hex.
    + destruct (NewOther E (Lookup inst "output")) as [other| |] eqn:Hno;
        simpl in Hok; try done.
      set (a := {| Ins := other; Type_ := name d; Name := ""; IsOutputs := false |})
        in *.
      destruct (td_outputsStep_assists E d inst (withAssists ctx [a]))
        as (auxs & Hauxs & Hall).
      pose proof (td_outputsStep_base E d inst (withAssists ctx [a])) as Hbase.
      destruct (traitDef.outputsStep E d inst (withAssists ctx [a]))
        as [[[]| |] c2]; simpl in *; try done. subst c2.
      split_and!.
      * intros _. exists other, auxs. split; [done|].
        rewrite td_patchStep_assists. simpl. rewrite <- app_assoc. done.
      * done.
      * intros c. apply td_outputStep_base.
      * intros Hpatch. by rewrite td_patchStep_base.
    + destruct (td_outputsStep_assists E d inst ctx) as (auxs & Hauxs & Hall).
      pose proof (td_outputsStep_base E d inst ctx) as Hbase.
      destruct (traitDef.outputsStep E d inst ctx)
        as [[[]| |] c2]; simpl in *; try done. subst c2.
      split_and!.
      * done.
      * intros _. exists auxs. split; [|done].
        by rewrite td_patchStep_assists.
      * intros c. apply td_outputStep_base.
      * intros Hpatch. by rewrite td_patchStep_base.
Qed.

(** ** The template context: facts *)

(** The loop over the base-context labels, in closed form. *)
Lemma labelLoop_closed labels :
  labelLoop labels = (VStr <$> labels, commonLabelsOf labels).
Proof.
  unfold labelLoop.
  apply (map_fold_weak_ind
           (λ r m, r = (VStr <$> m, commonLabelsOf m)) labelStep (∅, ∅)).
  - by rewrite fmap_empty.
  - intros k v m r Hk ->. unfold labelStep, commonLabelsOf. simpl.
    rewrite fmap_insert.
    destruct (decide (k = "appName")) as [->|Hk1].
    + rewrite lookup_insert_eq, lookup_insert_ne by done. rewrite Hk.
      destruct (m !! "name") as [c|]; [|by rewrite insert_empty].
      rewrite insert_insert_ne by done. by rewrite !insert_empty.
    + destruct (decide (k = "name")) as [->|Hk2].
      * rewrite lookup_insert_eq, lookup_insert_ne by done. by rewrite Hk.
      * by rewrite !lookup_insert_ne by done.
Qed.

(** One turn of the resolver on a fresh copy of a label set, and what
    follows it. *)
Lemma resolve_fresh {A} src cl obj cli ns r (k : gmap string value → M World A) w :
  (let! labels := MergeMapOverrideWithDst src cl in
   let! object := getResourceFromObj obj cli ns labels r in
   k object) w =
  let lbls := qualified (cl ∪ src) r in
  let rs := resolve obj cli ns lbls r in
  match rs.1 with
  | Ok object => k object (after w lbls rs.2)
  | Err e => (Err e, after w lbls rs.2)
  | Panic => (Panic, after w lbls rs.2)
  end.
Proof.
  unfold bind at 1, MergeMapOverrideWithDst, newMap. unfold bind at 1.
  rewrite (getResourceFromObj_run _ _ _ _ (cl ∪ src)) by apply lookup_insert_eq.
  simpl. rewrite insert_insert_eq. unfold after.
  by destruct (resolve _ _ _ _ _).1.
Qed.

(** One turn of the loop of the workload renderer on an auxiliary of the
    workload that has a name. *)
Lemma wd_outputsLoop_cons E cli ns cl a rest root w :
  Type_ a = AuxiliaryWorkload →
  Name a ≠ "" →
  workloadDef.outputsLoop E cli ns cl (a :: rest) root w =
    match ToUnstructured E (Ins a) with
    | Ok ref =>
        let lbls := qualified (traitLabels AuxiliaryWorkload cl) (Name a) in
        let rs := resolve ref cli ns lbls (Name a) in
        match rs.1 with
        | Ok object =>
            workloadDef.outputsLoop E cli ns cl rest
              (<[OutputsFieldName := VMap {[ Name a := VMap object ]}]> root)
              (after w lbls rs.2)
        | Err e => (Err e, after w lbls rs.2)
        | Panic => (Panic, after w lbls rs.2)
        end
    | Err e => (Err e, w)
    | Panic => (Panic, w)
    end.
Proof.
  intros Hty Hn. simpl.
  rewrite decide_False by (intros H; by apply H).
  rewrite decide_False by done.
  unfold bind at 1, lift.
  destruct (ToUnstructured E (Ins a)) as [ref| |]; simpl; [|done..].
  by rewrite resolve_fresh.
Qed.

Lemma wd_outputsLoop_skip E cli ns cl a rest root w :
  Type_ a ≠ AuxiliaryWorkload →
  workloadDef.outputsLoop E cli ns cl (a :: rest) root w =
    workloadDef.outputsLoop E cli ns cl rest root w.
Proof. intros Hty. simpl. by rewrite decide_True. Qed.

Lemma wd_outputsLoop_noname E cli ns cl a rest root w :
  Type_ a = AuxiliaryWorkload →
  Name a = "" →
  workloadDef.outputsLoop E cli ns cl (a :: rest) root w = (Err errNoName, w).
Proof.
  intros Hty Hn. simpl.
  rewrite decide_False by (intros H; by apply H).
  by rewrite decide_True.
Qed.

(** The loop over a list in two parts. *)
Lemma wd_outputsLoop_app E cli ns cl xs ys root w :
  workloadDef.outputsLoop E cli ns cl (xs ++ ys) root w =
    (let! r := workloadDef.outputsLoop E cli ns cl xs root in
     workloadDef.outputsLoop E cli ns cl ys r) w.
Proof.
  revert root w. induction xs as [|a xs IH]; intros root w; [done|].
  rewrite <- app_comm_cons.
  destruct (decide (Type_ a = AuxiliaryWorkload)) as [Hty|Hty].
  - destruct (decide (Name a = "")) as [Hn|Hn].
    + unfold bind. by rewrite !wd_outputsLoop_noname.
    + unfold bind. rewrite !wd_outputsLoop_cons by done.
      destruct (ToUnstructured E (Ins a)) as [ref| |]; [|done..]. simpl.
      destruct (resolve _ _ _ _ _).1; [|done..]. apply IH.
  - unfold bind. rewrite !wd_outputsLoop_skip by done. apply IH.
Qed.


(** One turn of the loop of the trait renderer on an auxiliary of the
    trait. *)
Lemma td_outputsLoop_cons E d cli ns cl a rest root w :
  Type_ a = name d →
  traitDef.outputsLoop E d cli ns cl (a :: rest) root w =
    match ToUnstructured E (Ins a) with
    | Ok ref =>
        let lbls := qualified (traitLabels (Type_ a) cl) (Name a) in
        let rs := resolve ref cli ns lbls (Name a) in
        match rs.1 with
        | Ok object =>
            traitDef.outputsLoop E d cli ns cl rest
              (if IsOutputs a
               then <[OutputsFieldName := VMap {[ Name a := VMap object ]}]> root
               else <[OutputFieldName := VMap object]> root)
              (after w lbls rs.2)
        | Err e => (Err e, after w lbls rs.2)
        | Panic => (Panic, after w lbls rs.2)
        end
    | Err e => (Err e, w)
    | Panic => (Panic, w)
    end.
Proof.
  intros Hty. simpl.
  rewrite decide_False by (intros H; by apply H).
  unfold bind at 1, lift.
  destruct (ToUnstructured E (Ins a)) as [ref| |]; simpl; [|done..].
  by rewrite resolve_fresh.
Qed.

Lemma td_outputsLoop_skip E d cli ns cl a rest root w :
  Type_ a ≠ name d →
  traitDef.outputsLoop E d cli ns cl (a :: rest) root w =
    traitDef.outputsLoop E d cli ns cl rest root w.
Proof. intros Hty. simpl. by rewrite decide_True. Qed.

Lemma td_outputsLoop_app E d cli ns cl xs ys root w :
  traitDef.outputsLoop E d cli ns cl (xs ++ ys) root w =
    (let! r := traitDef.outputsLoop E d cli ns cl xs root in
     traitDef.outputsLoop E d cli ns cl ys r) w.
Proof.
  revert root w. induction xs as [|a xs IH]; intros root w; [done|].
  rewrite <- app_comm_cons.
  destruct (decide (Type_ a = name d)) as [Hty|Hty].
  - unfold bind. rewrite !td_outputsLoop_cons by done.
    destruct (ToUnstructured E (Ins a)) as [ref| |]; [|done..]. simpl.
    destruct (resolve _ _ _ _ _).1; [|done..]. apply IH.
  - unfold bind. rewrite !td_outputsLoop_skip by done. apply IH.
Qed.


(** The loops write to [root] under the keys [output] and [outputs] only. *)
Lemma wd_outputsLoop_frame E cli ns cl xs root w root' w' k :
  k ≠ OutputsFieldName →
  workloadDef.outputsLoop E cli ns cl xs root w = (Ok root', w') →
  root' !! k = root !! k.
Proof.
  intros Hk. revert root w. induction xs as [|a xs IH]; intros root w.
  - by intros [= ->].
  - destruct (decide (Type_ a = AuxiliaryWorkload)) as [Hty|Hty].
    + destruct (decide (Name a = "")) as [Hn|Hn].
      * by rewrite wd_outputsLoop_noname.
      * rewrite wd_outputsLoop_cons by done.
        destruct (ToUnstructured E (Ins a)) as [ref| |]; [|done..]. simpl.
        destruct (resolve _ _ _ _ _).1; [|done..].
        intros Hrun. rewrite (IH _ _ Hrun). by apply lookup_insert_ne.
    + rewrite wd_outputsLoop_skip by done. apply IH.
Qed.

Lemma td_outputsLoop_frame E d cli ns cl xs root w root' w' k :
  k ≠ OutputFieldName →
  k ≠ OutputsFieldName →
  traitDef.outputsLoop E d cli ns cl xs root w = (Ok root', w') →
  root' !! k = root !! k.
Proof.
  intros Hk1 Hk2. revert root w. induction xs as [|a xs IH]; intros root w.
  - by intros [= ->].
  - destruct (decide (Type_ a = name d)) as [Hty|Hty].
    + rewrite td_outputsLoop_cons by done.
      destruct (ToUnstructured E (Ins a)) as [ref| |]; [|done..]. simpl.
      destruct (resolve _ _ _ _ _).1; [|done..].
      intros Hrun. rewrite (IH _ _ Hrun).
      destruct (IsOutputs a); by apply lookup_insert_ne.
    + rewrite td_outputsLoop_skip by done. apply IH.
Qed.

(** The reads the loops make and the label maps they leave do not depend on
    [root]. *)
Lemma wd_outputsLoop_world E cli ns cl xs root1 root2 w :
  (workloadDef.outputsLoop E cli ns cl xs root1 w).2 =
  (workloadDef.outputsLoop E cli ns cl xs root2 w).2.
Proof.
  revert root1 root2 w. induction xs as [|a xs IH]; intros root1 root2 w; [done|].
  destruct (decide (Type_ a = AuxiliaryWorkload)) as [Hty|Hty].
  - destruct (decide (Name a = "")) as [Hn|Hn].
    + by rewrite !wd_outputsLoop_noname.
    + rewrite !wd_outputsLoop_cons by done.
      destruct (ToUnstructured E (Ins a)) as [ref| |]; [|done..]. simpl.
      destruct (resolve _ _ _ _ _).1; [|done..]. apply IH.
  - rewrite !wd_outputsLoop_skip by done. apply IH.
Qed.

Lemma td_outputsLoop_world E d cli ns cl xs root1 root2 w :
  (traitDef.outputsLoop E d cli ns cl xs root1 w).2 =
  (traitDef.outputsLoop E d cli ns cl xs root2 w).2.
Proof.
  revert root1 root2 w. induction xs as [|a xs IH]; intros root1 root2 w; [done|].
  destruct (decide (Type_ a = name d)) as [Hty|Hty].
  - rewrite !td_outputsLoop_cons by done.
    destruct (ToUnstructured E (Ins a)) as [ref| |]; [|done..]. simpl.
    destruct (resolve _ _ _ _ _).1; [|done..]. apply IH.
  - rewrite !td_outputsLoop_skip by done. apply IH.
Qed.

(** The builders, with the loop over the labels in closed form. *)
Lemma wd_getTemplateContext_run E d ctx cli ns w :
  workloadDef.getTemplateContext E d ctx cli ns w =
    match base ctx with
    | None => (Panic, w)
    | Some b =>
        match ToUnstructured E b with
        | Ok cw =>
            let lbls := workloadLabels (commonLabelsOf (BaseContextLabels ctx)) in
            let rs := resolve cw cli ns lbls "" in
            match rs.1 with
            | Ok object =>
                workloadDef.outputsLoop E cli ns
                  (commonLabelsOf (BaseContextLabels ctx)) (assists ctx)
                  (<[OutputFieldName := VMap object]>
                     (VStr <$> BaseContextLabels ctx))
                  (after w lbls rs.2)
            | Err e => (Err e, after w lbls rs.2)
            | Panic => (Panic, after w lbls rs.2)
            end
        | Err e => (Err e, w)
        | Panic => (Panic, w)
        end
    end.
Proof.
  unfold workloadDef.getTemplateContext. rewrite labelLoop_closed. simpl.
  destruct (base ctx) as [b|]; [|done].
  unfold bind at 1, lift.
  destruct (ToUnstructured E b) as [cw| |]; simpl; [|done..].
  rewrite resolve_fresh. unfold qualified, workloadLabels.
  by rewrite decide_False by (intros H; by apply H).
Qed.

Lemma td_getTemplateContext_run E d ctx cli ns w :
  traitDef.getTemplateContext E d ctx cli ns w =
    traitDef.outputsLoop E d cli ns (commonLabelsOf (BaseContextLabels ctx))
      (assists ctx) (VStr <$> BaseContextLabels ctx) w.
Proof.
  unfold traitDef.getTemplateContext. by rewrite labelLoop_closed.
Qed.

(** ** Claims about the template context *)

(** C1, as stated, fails.  The trait renderer has no check of the name: an
    auxiliary of the trait marked as an output and without a name is
    resolved, and the context is built with [root.outputs = {"": object}].
    The workload renderer checks the name of the auxiliaries of type
    [AuxiliaryWorkload] only: the same auxiliary, of another type, is passed
    over and the context is built without it. *)
Lemma C1_counterexample :
  IsOutputs (auxOf "web" "" "" true) = true ∧
  Name (auxOf "web" "" "" true) = "" ∧
  Type_ (auxOf "web" "" "" true) = name webDef ∧
  (traitDef.getTemplateContext (toyEnv emptyInst) webDef
     (ctxOf [auxOf "web" "" "" true]) (fixedReader [livePod]) "ns"
     emptyWorld).1
  = Ok (<["outputs" := VMap {[ "" := VMap (Object livePod) ]}]>
          (VStr <$> BaseContextLabels (ctxOf []))) ∧
  (workloadDef.getTemplateContext (toyEnv emptyInst) webDef
     (ctxOf [auxOf "web" "" "" true]) (fixedReader [livePod]) "ns"
     emptyWorld).1
  = Ok (<["output" := VMap (Object (pod "web" ∅ "web"))]>
          (VStr <$> BaseContextLabels (ctxOf []))).
Proof. split_and!; reflexivity. Qed.

(** The builder of the workload renderer over a list of auxiliaries in two
    parts. *)
Lemma wd_getTemplateContext_app E d ctx cli ns xs ys w :
  workloadDef.getTemplateContext E d (setAssists ctx (xs ++ ys)) cli ns w =
    (let! r := workloadDef.getTemplateContext E d (setAssists ctx xs) cli ns in
     workloadDef.outputsLoop E cli ns (commonLabelsOf (BaseContextLabels ctx)) ys r)
      w.
Proof.
  unfold bind. rewrite !wd_getTemplateContext_run. simpl.
  destruct (base ctx) as [b|]; [|done].
  destruct (ToUnstructured E b) as [cw| |]; [|done..]. simpl.
  destruct (resolve _ _ _ _ _).1; [|done..].
  apply wd_outputsLoop_app.
Qed.

Lemma setAssists_id ctx : setAssists ctx (assists ctx) = ctx.
Proof. by destruct ctx. Qed.

(** C1, amended.  When the context holds an auxiliary of type
    [AuxiliaryWorkload] without a name, whatever its [IsOutputs], the
    builder of the workload renderer never returns a context; when the Base
    and the auxiliaries before that one are processed without error, it
    returns the error "the auxiliary of workload must have a name with
    format 'outputs.<my-name>'" and makes no further read. *)
Theorem C1_unnamed_workload_auxiliary E d ctx cli ns w pre a post :
  assists ctx = pre ++ a :: post →
  Type_ a = AuxiliaryWorkload →
  Name a = "" →
  (∀ root, (workloadDef.getTemplateContext E d ctx cli ns w).1 ≠ Ok root) ∧
  (∀ root1 w1,
     workloadDef.getTemplateContext E d (setAssists ctx pre) cli ns w
       = (Ok root1, w1) →
     workloadDef.getTemplateContext E d ctx cli ns w = (Err errNoName, w1)).
Proof.
  intros Hassists Hty Hn.
  assert (Hrun : workloadDef.getTemplateContext E d ctx cli ns w =
            (let! r := workloadDef.getTemplateContext E d (setAssists ctx pre) cli ns in
             workloadDef.outputsLoop E cli ns
               (commonLabelsOf (BaseContextLabels ctx)) (a :: post) r) w).
  { rewrite <- wd_getTemplateContext_app, <- Hassists. by rewrite setAssists_id. }
  rewrite Hrun. clear Hrun. unfold bind.
  destruct (workloadDef.getTemplateContext E d (setAssists ctx pre) cli ns w)
    as [[r1| |] w1'].
  - rewrite wd_outputsLoop_noname by done. split; [done|].
    by intros root1 w1 [= <- <-].
  - split; [done|]. by intros root1 w1 [=].
  - split; [done|]. by intros root1 w1 [=].
Qed.

Lemma C1_witness :
  (workloadDef.getTemplateContext (toyEnv emptyInst) webDef
     (ctxOf [auxOf AuxiliaryWorkload "svc" "svc-obj" true;
             auxOf AuxiliaryWorkload "" "ing-obj" false;
             auxOf AuxiliaryWorkload "cm" "cm-obj" true])
     (fixedReader []) "ns" emptyWorld).1
  = Err errNoName.
Proof.
  destruct (C1_unnamed_workload_auxiliary (toyEnv emptyInst) webDef
              (ctxOf [auxOf AuxiliaryWorkload "svc" "svc-obj" true;
                      auxOf AuxiliaryWorkload "" "ing-obj" false;
                      auxOf AuxiliaryWorkload "cm" "cm-obj" true])
              (fixedReader []) "ns" emptyWorld
              [auxOf AuxiliaryWorkload "svc" "svc-obj" true]
              (auxOf AuxiliaryWorkload "" "ing-obj" false)
              [auxOf AuxiliaryWorkload "cm" "cm-obj" true]
              eq_refl eq_refl eq_refl) as [_ H].
  pose (p := workloadDef.getTemplateContext (toyEnv emptyInst) webDef
               (setAssists
                  (ctxOf [auxOf AuxiliaryWorkload "svc" "svc-obj" true;
                          auxOf AuxiliaryWorkload "" "ing-obj" false;
                          auxOf AuxiliaryWorkload "cm" "cm-obj" true])
                  [auxOf AuxiliaryWorkload "svc" "svc-obj" true])
               (fixedReader []) "ns" emptyWorld).
  refine (f_equal fst (H (match p.1 with Ok r => r | _ => ∅ end) p.2 _)).
  vm_compute. reflexivity.
Defined.



(** The common labels bind two keys at most. *)
Lemma commonLabelsOf_lookup labels k :
  commonLabelsOf labels !! k =
    if decide (k = oam.LabelAppName) then labels !! "appName"
    else if decide (k = oam.LabelAppComponent) then labels !! "name"
    else None.
Proof.
  unfold commonLabelsOf.
  destruct (labels !! "name") as [c|], (labels !! "appName") as [n|];
    repeat case_decide; subst;
    rewrite ?lookup_insert_eq, ?lookup_insert_ne, ?lookup_singleton_eq,
      ?lookup_singleton_ne, ?lookup_empty by done; done.
Qed.

Lemma commonLabelsOf_agree labels1 labels2 :
  labels1 !! "appName" = labels2 !! "appName" →
  labels1 !! "name" = labels2 !! "name" →
  commonLabelsOf labels1 = commonLabelsOf labels2.
Proof. unfold commonLabelsOf. by intros -> ->. Qed.

(** C8.  The loop over the base-context labels, the same in both builders,
    copies every label into the root context as it is, and binds in
    [commonLabels] the app-name label to the value of ["appName"] and the
    component label to the value of ["name"], and nothing else.  No other
    label reaches the resolver: two contexts with the same Base and
    auxiliaries whose labels agree on ["appName"] and ["name"] lead both
    builders to the same reads with the same label sets.  A context that is
    returned holds every label as it is under every key but [output] and
    [outputs], where the resolved objects go. *)
Theorem C8_base_labels E d ctx cli ns w :
  let labels := BaseContextLabels ctx in
  (labelLoop labels).1 = VStr <$> labels ∧
  (∀ k, (labelLoop labels).2 !! k =
        if decide (k = oam.LabelAppName) then labels !! "appName"
        else if decide (k = oam.LabelAppComponent) then labels !! "name"
        else None) ∧
  (∀ ctx',
     base ctx' = base ctx →
     assists ctx' = assists ctx →
     BaseContextLabels ctx' !! "appName" = labels !! "appName" →
     BaseContextLabels ctx' !! "name" = labels !! "name" →
     (workloadDef.getTemplateContext E d ctx' cli ns w).2 =
       (workloadDef.getTemplateContext E d ctx cli ns w).2 ∧
     (traitDef.getTemplateContext E d ctx' cli ns w).2 =
       (traitDef.getTemplateContext E d ctx cli ns w).2) ∧
  (∀ root w' k,
     k ≠ "output" → k ≠ "outputs" →
     workloadDef.getTemplateContext E d ctx cli ns w = (Ok root, w') ∨
       traitDef.getTemplateContext E d ctx cli ns w = (Ok root, w') →
     root !! k = VStr <$> labels !! k).
Proof.
  intros labels. split_and!.
  - by rewrite labelLoop_closed.
  - intros k. rewrite labelLoop_closed. apply commonLabelsOf_lookup.
  - intros ctx' Hb Ha H1 H2.
    rewrite !wd_getTemplateContext_run, !td_getTemplateContext_run.
    rewrite Hb, Ha.
    rewrite (commonLabelsOf_agree (BaseContextLabels ctx') labels H1 H2).
    split.
    + destruct (base ctx) as [b|]; [|done].
      destruct (ToUnstructured E b) as [cw| |]; [|done..]. simpl.
      destruct (resolve _ _ _ _ _).1; [|done..].
      apply wd_outputsLoop_world.
    + apply td_outputsLoop_world.
  - intros root w' k Hk1 Hk2 [Hrun|Hrun].
    + rewrite wd_getTemplateContext_run in Hrun.
      destruct (base ctx) as [b|]; [|done].
      destruct (ToUnstructured E b) as [cw| |]; [|done..]. simpl in Hrun.
      destruct (resolve _ _ _ _ _).1; [|done..].
      rewrite (wd_outputsLoop_frame _ _ _ _ _ _ _ _ _ k Hk2 Hrun).
      rewrite lookup_insert_ne by done. by rewrite lookup_fmap.
    + rewrite td_getTemplateContext_run in Hrun.
      rewrite (td_outputsLoop_frame _ _ _ _ _ _ _ _ _ _ k Hk1 Hk2 Hrun).
      by rewrite lookup_fmap.
Qed.

(** ** The claims on the examples *)

Lemma C6_witness :
  (∃ b,
     NewBase (toyEnv (instOf fiveFields))
       (Lookup (Build (toyEnv (instOf fiveFields))
                  (files (toyEnv (instOf fiveFields)) webDef "-" "template"
                     priorCtx)) "output") = Ok b ∧
     base (workloadDef.Complete (toyEnv (instOf fiveFields)) webDef "template"
             priorCtx).2 = Some b) ∧
  base (traitDef.Complete (toyEnv (instOf fiveFields)) webDef "template"
          priorCtx).2 = base priorCtx.
Proof.
  destruct (C6_output_is_base_or_auxiliary (toyEnv (instOf fiveFields)) webDef
              "template" priorCtx) as [Hwd Htd].
  split.
  - apply Hwd. reflexivity.
  - destruct (Htd eq_refl) as (inst & Hinst & _ & _ & _ & Hbase).
    apply Hbase. injection Hinst as <-. reflexivity.
Defined.

(** The Base before the render is gone after the render of the workload
    renderer, and still there after the render of the trait renderer, which
    holds the [output] of the template as its first auxiliary. *)
Example Complete_priorCtx :
  base (workloadDef.Complete (toyEnv (instOf fiveFields)) webDef "template"
          priorCtx).2 = Some {| insValue := CString "web" |} ∧
  base (traitDef.Complete (toyEnv (instOf fiveFields)) webDef "template"
          priorCtx).2 = Some {| insValue := CString "old" |} ∧
  head (assists (traitDef.Complete (toyEnv (instOf fiveFields)) webDef
                   "template" priorCtx).2)
    = Some {| Ins := {| insValue := CString "web" |}; Type_ := "web";
              Name := ""; IsOutputs := false |}.
Proof. split_and!; reflexivity. Qed.

Lemma C7_witness :
  (checkHealth (toyEnv emptyInst) ∅ "isHealth: true" emptyWorld).1 = Ok true ∧
  trace (checkHealth (toyEnv emptyInst) ∅ "isHealth: true" emptyWorld).2
    = [EvCompile ("context: {}" +:+ newline +:+ "isHealth: true")].
Proof.
  destruct (C7_evaluator (toyEnv emptyInst) ∅ "isHealth: true" "{}" emptyWorld
              eq_refl) as (Htrace & _ & Hbool & _).
  split.
  - apply Hbool. eexists. split; reflexivity.
  - exact Htrace.
Defined.

Lemma C8_witness :
  (workloadDef.getTemplateContext (toyEnv emptyInst) webDef
     (ctxOf' [auxOf AuxiliaryWorkload "svc" "" true]) (fixedReader [livePod])
     "ns" emptyWorld).2 =
  (workloadDef.getTemplateContext (toyEnv emptyInst) webDef
     (ctxOf [auxOf AuxiliaryWorkload "svc" "" true]) (fixedReader [livePod])
     "ns" emptyWorld).2 ∧
  (traitDef.getTemplateContext (toyEnv emptyInst) webDef
     (ctxOf' [auxOf AuxiliaryWorkload "svc" "" true]) (fixedReader [livePod])
     "ns" emptyWorld).2 =
  (traitDef.getTemplateContext (toyEnv emptyInst) webDef
     (ctxOf [auxOf AuxiliaryWorkload "svc" "" true]) (fixedReader [livePod])
     "ns" emptyWorld).2.
Proof.
  apply (proj1 (proj2 (proj2 (C8_base_labels (toyEnv emptyInst) webDef
                                (ctxOf [auxOf AuxiliaryWorkload "svc" "" true])
                                (fixedReader [livePod]) "ns" emptyWorld)))
           (ctxOf' [auxOf AuxiliaryWorkload "svc" "" true]));
    reflexivity.
Defined.

(** The label sets of the listings of the example: the common labels come
    from ["appName"] and ["name"]; ["revision"] is in none of them. *)
Example listings_of_ctxOf :
  listedLabels
    (trace (workloadDef.getTemplateContext (toyEnv emptyInst) webDef
              (ctxOf [auxOf AuxiliaryWorkload "svc" "" true])
              (fixedReader [livePod]) "ns" emptyWorld).2)
  = [ {[ oam.TraitTypeLabel := AuxiliaryWorkload;
         oam.TraitResource := "svc";
         oam.LabelAppName := "shop";
         oam.LabelAppComponent := "web" ]} ].
Proof. vm_compute. reflexivity. Qed.

(** * Further facts *)

(** ** The resolver *)

Lemma scanItems_Some items r v :
  scanItems items r = Some v → v ∈ items ∧ traitResourceOf v = r.
Proof.
  induction items as [|u items IH]; simpl; [done|].
  case_decide as Hu.
  - intros [= ->]. split; [apply list_elem_of_here|done].
  - intros H. destruct (IH H) as [Hin Hv]. split; [by apply list_elem_of_further|done].
Qed.

(** X1.  An object that carries a name is fetched by its kind, the namespace
    and that name, in one read; the result is the object the reader returns,
    or the error of the reader as it is.  The labels and the name of the
    outputs resource play no part in it. *)
Theorem X1_named_object_is_fetched obj cli ns l m r w :
  GetName obj ≠ "" →
  heap w !! l = Some m →
  (getResourceFromObj obj cli ns (Some l) r w).1 =
    match GetObjectGivenGVKAndName cli (GroupVersionKind obj) ns (GetName obj) with
    | Ok u => Ok (Object u)
    | Err e => Err e
    | Panic => Panic
    end ∧
  trace (getResourceFromObj obj cli ns (Some l) r w).2 =
    trace w ++ [EvGet (GroupVersionKind obj) ns (GetName obj)].
Proof.
  intros Hn Hl. rewrite (getResourceFromObj_run _ _ _ _ _ _ _ Hl).
  unfold resolve. by rewrite decide_True.
Qed.

Lemma X1_witness :
  (getResourceFromObj (pod "missing" ∅ "") (fixedReader [livePod]) "ns"
     (Some 1%positive) "svc" oneMapWorld).1 = Err (ErrNew "not found") ∧
  trace (getResourceFromObj (pod "missing" ∅ "") (fixedReader [livePod]) "ns"
           (Some 1%positive) "svc" oneMapWorld).2
    = trace oneMapWorld ++ [EvGet podGVK "ns" "missing"].
Proof.
  apply (X1_named_object_is_fetched (pod "missing" ∅ "") (fixedReader [livePod])
           "ns" 1%positive {[ "a" := "b" ]} "svc" oneMapWorld).
  - discriminate.
  - reflexivity.
Defined.

(** X2.  When the listing for an object without a name returns exactly one
    candidate, that candidate is the result, whatever its trait-resource
    label: the label is compared only among several candidates. *)
Theorem X2_sole_candidate_is_returned obj cli ns l m r w v :
  GetName obj = "" →
  heap w !! l = Some m →
  GetObjectsGivenGVKAndLabels cli (GroupVersionKind obj) ns (qualified m r)
    = Ok [v] →
  (getResourceFromObj obj cli ns (Some l) r w).1 = Ok (Object v).
Proof.
  intros Hn Hl Hlist. rewrite (getResourceFromObj_run _ _ _ _ _ _ _ Hl).
  unfold resolve. rewrite decide_False by (intros H; by apply H).
  simpl. by rewrite Hlist.
Qed.

Lemma X2_witness :
  traitResourceOf livePod ≠ "svc" ∧
  (getResourceFromObj (pod "" ∅ "") (fixedReader [livePod]) "ns"
     (Some 1%positive) "svc" oneMapWorld).1 = Ok (Object livePod).
Proof.
  split; [discriminate|].
  apply (X2_sole_candidate_is_returned (pod "" ∅ "") (fixedReader [livePod])
           "ns" 1%positive {[ "a" := "b" ]} "svc" oneMapWorld livePod);
    reflexivity.
Defined.

(** X3.  For an object without a name, an empty listing makes the resolver
    fail with the error that carries the kind and the label set the listing
    was asked for (the caller's, with the qualifier when there is one); an
    error of the listing is returned as it is.  In both cases the listing is
    the only read. *)
Theorem X3_nothing_listed obj cli ns l m r w :
  GetName obj = "" →
  heap w !! l = Some m →
  (GetObjectsGivenGVKAndLabels cli (GroupVersionKind obj) ns (qualified m r)
     = Ok [] →
   getResourceFromObj obj cli ns (Some l) r w =
     (Err (ErrNoResources (GroupVersionKind obj) (qualified m r)),
      {| heap := <[l := qualified m r]> (heap w);
         trace := trace w ++
                  [EvList (GroupVersionKind obj) ns (qualified m r)] |})) ∧
  (∀ e,
     GetObjectsGivenGVKAndLabels cli (GroupVersionKind obj) ns (qualified m r)
       = Err e →
     getResourceFromObj obj cli ns (Some l) r w =
       (Err e,
        {| heap := <[l := qualified m r]> (heap w);
           trace := trace w ++
                    [EvList (GroupVersionKind obj) ns (qualified m r)] |})).
Proof.
  intros Hn Hl. rewrite (getResourceFromObj_run _ _ _ _ _ _ _ Hl).
  unfold resolve. rewrite decide_False by (intros H; by apply H). simpl.
  split; [intros ->|intros e ->]; done.
Qed.

Lemma X3_witness :
  getResourceFromObj (pod "" ∅ "") (fixedReader []) "ns" (Some 1%positive)
    "svc" oneMapWorld =
  (Err (ErrNoResources podGVK (qualified {[ "a" := "b" ]} "svc")),
   {| heap := <[1%positive := qualified {[ "a" := "b" ]} "svc"]> (heap oneMapWorld);
      trace := trace oneMapWorld ++
               [EvList podGVK "ns" (qualified {[ "a" := "b" ]} "svc")] |}).
Proof.
  apply (proj1 (X3_nothing_listed (pod "" ∅ "") (fixedReader []) "ns"
                  1%positive {[ "a" := "b" ]} "svc" oneMapWorld
                  eq_refl eq_refl)).
  reflexivity.
Defined.

(** X4.  Among two or more candidates the resolver returns the first one, in
    the order of the listing, whose trait-resource label reads as the name of
    the outputs resource (a missing label reads as the empty string); it
    fails, with the error that carries the kind and the labels, exactly when
    no candidate has such a label. *)
Theorem X4_first_matching_candidate obj cli ns l m r w items :
  GetName obj = "" →
  heap w !! l = Some m →
  GetObjectsGivenGVKAndLabels cli (GroupVersionKind obj) ns (qualified m r)
    = Ok items →
  2 ≤ length items →
  (∀ pre v post,
     items = pre ++ v :: post →
     Forall (λ u, traitResourceOf u ≠ r) pre →
     traitResourceOf v = r →
     (getResourceFromObj obj cli ns (Some l) r w).1 = Ok (Object v)) ∧
  (Forall (λ u, traitResourceOf u ≠ r) items ↔
   (getResourceFromObj obj cli ns (Some l) r w).1
     = Err (ErrNoResources (GroupVersionKind obj) (qualified m r))).
Proof.
  intros Hn Hl Hlist Hlen. rewrite (getResourceFromObj_run _ _ _ _ _ _ _ Hl).
  unfold resolve. rewrite decide_False by (intros H; by apply H). simpl.
  rewrite Hlist. destruct items as [|a [|b items]]; simpl in Hlen; try lia.
  unfold pick. split.
  - intros pre v post Heq Hpre Hv. rewrite Heq.
    by rewrite (scanItems_first pre v post r).
  - rewrite <- scanItems_None.
    destruct (scanItems (a :: b :: items) r); split; done.
Qed.

Lemma X4_witness :
  (getResourceFromObj (pod "" ∅ "")
     (fixedReader [pod "" {[ oam.TraitResource := "a" ]} "first";
                   pod "" {[ oam.TraitResource := "b" ]} "second"])
     "ns" (Some 1%positive) "b" oneMapWorld).1
  = Ok (Object (pod "" {[ oam.TraitResource := "b" ]} "second")).
Proof.
  refine (proj1 (X4_first_matching_candidate (pod "" ∅ "")
                   (fixedReader [pod "" {[ oam.TraitResource := "a" ]} "first";
                                 pod "" {[ oam.TraitResource := "b" ]} "second"])
                   "ns" 1%positive {[ "a" := "b" ]} "b" oneMapWorld
                   [pod "" {[ oam.TraitResource := "a" ]} "first";
                    pod "" {[ oam.TraitResource := "b" ]} "second"]
                   eq_refl eq_refl eq_refl _)
            [pod "" {[ oam.TraitResource := "a" ]} "first"]
            (pod "" {[ oam.TraitResource := "b" ]} "second") [] eq_refl _ eq_refl).
  - simpl. lia.
  - constructor; [discriminate|constructor].
Defined.

(** X5.  What the resolver returns for an object without a name is the
    content of one of the candidates of the listing: the only one, or one
    whose trait-resource label reads as the name of the outputs resource. *)
Theorem X5_result_is_a_candidate obj cli ns l m r w items object :
  GetName obj = "" →
  heap w !! l = Some m →
  GetObjectsGivenGVKAndLabels cli (GroupVersionKind obj) ns (qualified m r)
    = Ok items →
  (getResourceFromObj obj cli ns (Some l) r w).1 = Ok object →
  ∃ v, v ∈ items ∧ object = Object v ∧
       (items = [v] ∨ traitResourceOf v = r).
Proof.
  intros Hn Hl Hlist. rewrite (getResourceFromObj_run _ _ _ _ _ _ _ Hl).
  unfold resolve. rewrite decide_False by (intros H; by apply H). simpl.
  rewrite Hlist. unfold pick.
  destruct items as [|a [|b items]].
  - done.
  - intros [= <-]. exists a. split_and!; [apply list_elem_of_here|done|by left].
  - destruct (scanItems (a :: b :: items) r) as [v|] eqn:Hscan; [|done].
    intros [= <-]. destruct (scanItems_Some _ _ _ Hscan) as [Hin Hv].
    exists v. split_and!; [done|done|by right].
Qed.

Lemma X5_witness :
  ∃ v, v ∈ [emptyLabelled; unlabelled] ∧
       Object emptyLabelled = Object v ∧
       ([emptyLabelled; unlabelled] = [v] ∨ traitResourceOf v = "").
Proof.
  apply (X5_result_is_a_candidate (pod "" ∅ "")
           (fixedReader [emptyLabelled; unlabelled]) "ns" 1%positive
           {[ "a" := "b" ]} "" oneMapWorld [emptyLabelled; unlabelled]
           (Object emptyLabelled)); reflexivity.
Defined.

(** X6.  A resolution makes exactly one read of the cluster, and with an
    empty name of the outputs resource it leaves every label map as it
    was. *)
Theorem X6_one_read obj cli ns l m r w :
  heap w !! l = Some m →
  (∃ ev, trace (getResourceFromObj obj cli ns (Some l) r w).2 = trace w ++ [ev] ∧
         match ev with EvCompile _ => False | _ => True end) ∧
  (r = "" → heap (getResourceFromObj obj cli ns (Some l) r w).2 = heap w).
Proof.
  intros Hl. rewrite (getResourceFromObj_run _ _ _ _ _ _ _ Hl). simpl. split.
  - eexists. split; [done|]. unfold resolve. by case_decide.
  - intros ->. unfold qualified.
    rewrite decide_False by (intros H; by apply H). by apply insert_id.
Qed.

Lemma X6_witness :
  (∃ ev, trace (getResourceFromObj (pod "" ∅ "") (fixedReader [livePod]) "ns"
                  (Some 1%positive) "" oneMapWorld).2
           = trace oneMapWorld ++ [ev] ∧
         match ev with EvCompile _ => False | _ => True end) ∧
  ("" = "" →
   heap (getResourceFromObj (pod "" ∅ "") (fixedReader [livePod]) "ns"
           (Some 1%positive) "" oneMapWorld).2 = heap oneMapWorld).
Proof.
  apply (X6_one_read (pod "" ∅ "") (fixedReader [livePod]) "ns" 1%positive
           {[ "a" := "b" ]} "" oneMapWorld).
  reflexivity.
Defined.

(** ** The template context *)

(** X7.  In a context returned by the builder of the workload renderer,
    [output] is the object the Base resolves to, under the label set of the
    workload and with no outputs resource; a base-context label of that name
    is overwritten. *)
Theorem X7_workload_output_is_the_base E d ctx cli ns w root w' :
  workloadDef.getTemplateContext E d ctx cli ns w = (Ok root, w') →
  ∃ b cw object,
    base ctx = Some b ∧
    ToUnstructured E b = Ok cw ∧
    (resolve cw cli ns
       (workloadLabels (commonLabelsOf (BaseContextLabels ctx))) "").1
      = Ok object ∧
    root !! "output" = Some (VMap object).
Proof.
  rewrite wd_getTemplateContext_run.
  destruct (base ctx) as [b|]; [|done].
  destruct (ToUnstructured E b) as [cw| |] eqn:Hcw; [|done..]. simpl.
  destruct (resolve cw cli ns _ "").1 as [object| |] eqn:Hres; [|done..].
  intros Hrun. exists b, cw, object. split_and!; [done..|].
  assert (Hne : "output" ≠ OutputsFieldName) by (unfold OutputsFieldName; discriminate).
  rewrite (wd_outputsLoop_frame _ _ _ _ _ _ _ _ _ "output" Hne Hrun).
  apply lookup_insert_eq.
Qed.

Lemma X7_witness :
  ∃ b cw object,
    base (ctxOf [auxOf AuxiliaryWorkload "svc" "svc-obj" true]) = Some b ∧
    ToUnstructured (toyEnv emptyInst) b = Ok cw ∧
    (resolve cw (fixedReader []) "ns"
       (workloadLabels
          (commonLabelsOf
             (BaseContextLabels (ctxOf [auxOf AuxiliaryWorkload "svc" "svc-obj" true]))))
       "").1 = Ok object ∧
    <["outputs" := VMap {[ "svc" := VMap (Object (pod "svc-obj" ∅ "svc-obj")) ]}]>
      (<["output" := VMap (Object (pod "web" ∅ "web"))]>
         (VStr <$> BaseContextLabels (ctxOf []))) !! "output"
    = Some (VMap object).
Proof.
  pose (p := workloadDef.getTemplateContext (toyEnv emptyInst) webDef
               (ctxOf [auxOf AuxiliaryWorkload "svc" "svc-obj" true])
               (fixedReader []) "ns" emptyWorld).
  refine (X7_workload_output_is_the_base (toyEnv emptyInst) webDef
            (ctxOf [auxOf AuxiliaryWorkload "svc" "svc-obj" true])
            (fixedReader []) "ns" emptyWorld
            (<["outputs" := VMap {[ "svc" := VMap (Object (pod "svc-obj" ∅ "svc-obj")) ]}]>
               (<["output" := VMap (Object (pod "web" ∅ "web"))]>
                  (VStr <$> BaseContextLabels (ctxOf []))))
            p.2 _).
  vm_compute. reflexivity.
Defined.

(** Auxiliaries that are not the singular output of the trait leave
    [root.output] as it is. *)
Lemma td_outputsLoop_keeps_output E d cli ns cl xs root w root' w' :
  Forall (λ x, ¬ (Type_ x = name d ∧ IsOutputs x = false)) xs →
  traitDef.outputsLoop E d cli ns cl xs root w = (Ok root', w') →
  root' !! OutputFieldName = root !! OutputFieldName.
Proof.
  intros Hall. revert root w.
  induction Hall as [|a xs Ha _ IH]; intros root w.
  - by intros [= ->].
  - destruct (decide (Type_ a = name d)) as [Hty|Hty].
    + rewrite td_outputsLoop_cons by done.
      destruct (ToUnstructured E (Ins a)) as [ref| |]; [|done..]. simpl.
      destruct (resolve _ _ _ _ _).1; [|done..].
      destruct (IsOutputs a) eqn:Hout; [|by destruct Ha].
      intros Hrun. rewrite (IH _ _ Hrun). by apply lookup_insert_ne.
    + rewrite td_outputsLoop_skip by done. apply IH.
Qed.

(** X8.  In a context returned by the builder of the trait renderer,
    [output] is the object resolved for the last auxiliary of the trait that
    is not marked as an output. *)
Theorem X8_trait_output_is_last_plain_auxiliary
    E d ctx cli ns w root w' pre a post :
  assists ctx = pre ++ a :: post →
  Type_ a = name d →
  IsOutputs a = false →
  Forall (λ x, ¬ (Type_ x = name d ∧ IsOutputs x = false)) post →
  traitDef.getTemplateContext E d ctx cli ns w = (Ok root, w') →
  ∃ ref object,
    ToUnstructured E (Ins a) = Ok ref ∧
    (resolve ref cli ns
       (qualified (traitLabels (name d) (commonLabelsOf (BaseContextLabels ctx)))
          (Name a))
       (Name a)).1 = Ok object ∧
    root !! "output" = Some (VMap object).
Proof.
  intros Hassists Hty Hout Hpost.
  rewrite td_getTemplateContext_run, Hassists, td_outputsLoop_app. unfold bind.
  destruct (traitDef.outputsLoop E d cli ns _ pre _ w) as [[r1| |] w1]; [|done..].
  rewrite td_outputsLoop_cons by done.
  destruct (ToUnstructured E (Ins a)) as [ref| |]; [|done..]. simpl.
  rewrite Hty, Hout.
  destruct (resolve ref cli ns _ (Name a)).1 as [object| |] eqn:Hres; [|done..].
  intros Hrest. exists ref, object. split_and!; [done..|].
  pose proof (td_outputsLoop_keeps_output _ _ _ _ _ _ _ _ _ _ Hpost Hrest)
    as Hkeep.
  unfold OutputFieldName in Hkeep. rewrite Hkeep. apply lookup_insert_eq.
Qed.

Lemma X8_witness :
  ∃ ref object,
    ToUnstructured (toyEnv emptyInst) (Ins (auxOf "web" "" "ing-obj" false))
      = Ok ref ∧
    (resolve ref (fixedReader []) "ns"
       (qualified
          (traitLabels (name webDef)
             (commonLabelsOf
                (BaseContextLabels
                   (ctxOf [auxOf "web" "" "ing-obj" false;
                           auxOf "web" "cm" "cm-obj" true]))))
          "")
       "").1 = Ok object ∧
    <["outputs" := VMap {[ "cm" := VMap (Object (pod "cm-obj" ∅ "cm-obj")) ]}]>
      (<["output" := VMap (Object (pod "ing-obj" ∅ "ing-obj"))]>
         (VStr <$> BaseContextLabels (ctxOf []))) !! "output"
    = Some (VMap object).
Proof.
  pose (ctx := ctxOf [auxOf "web" "" "ing-obj" false;
                      auxOf "web" "cm" "cm-obj" true]).
  pose (p := traitDef.getTemplateContext (toyEnv emptyInst) webDef ctx
               (fixedReader []) "ns" emptyWorld).
  refine (X8_trait_output_is_last_plain_auxiliary (toyEnv emptyInst) webDef ctx
            (fixedReader []) "ns" emptyWorld
            (<["outputs" := VMap {[ "cm" := VMap (Object (pod "cm-obj" ∅ "cm-obj")) ]}]>
               (<["output" := VMap (Object (pod "ing-obj" ∅ "ing-obj"))]>
                  (VStr <$> BaseContextLabels (ctxOf []))))
            p.2 [] (auxOf "web" "" "ing-obj" false)
            [auxOf "web" "cm" "cm-obj" true] eq_refl eq_refl eq_refl _ _).
  - constructor; [|constructor]. intros [_ H]. discriminate H.
  - vm_compute. reflexivity.
Defined.

Lemma td_outputsLoop_others E d cli ns cl xs root w :
  Forall (λ x, Type_ x ≠ name d) xs →
  traitDef.outputsLoop E d cli ns cl xs root w = (Ok root, w).
Proof.
  induction 1 as [|a xs Ha _ IH]; [done|].
  by rewrite td_outputsLoop_skip.
Qed.

(** X9.  When the context holds no auxiliary of the trait, the builder of
    the trait renderer returns the base-context labels and nothing else,
    without a read of the cluster and without a look at the Base. *)
Theorem X9_trait_without_auxiliaries E d ctx cli ns w :
  Forall (λ x, Type_ x ≠ name d) (assists ctx) →
  traitDef.getTemplateContext E d ctx cli ns w =
    (Ok (VStr <$> BaseContextLabels ctx), w).
Proof.
  intros Hall. rewrite td_getTemplateContext_run.
  by apply td_outputsLoop_others.
Qed.

Lemma X9_witness :
  traitDef.getTemplateContext (toyEnv emptyInst) webDef
    (ctxOf [auxOf AuxiliaryWorkload "svc" "svc-obj" true]) (fixedReader [])
    "ns" emptyWorld
  = (Ok (VStr <$> BaseContextLabels
                    (ctxOf [auxOf AuxiliaryWorkload "svc" "svc-obj" true])),
     emptyWorld).
Proof.
  apply (X9_trait_without_auxiliaries (toyEnv emptyInst) webDef
           (ctxOf [auxOf AuxiliaryWorkload "svc" "svc-obj" true])
           (fixedReader []) "ns" emptyWorld).
  constructor; [discriminate|constructor].
Defined.

Lemma wd_outputsLoop_trace E cli ns cl xs root w root' w' :
  workloadDef.outputsLoop E cli ns cl xs root w = (Ok root', w') →
  trace w' = trace w ++
             flat_map (readOf E cli ns cl)
               (filter (λ a, Type_ a = AuxiliaryWorkload) xs).
Proof.
  revert root w. induction xs as [|a xs IH]; intros root w.
  - intros [= _ ->]. by rewrite app_nil_r.
  - destruct (decide (Type_ a = AuxiliaryWorkload)) as [Hty|Hty].
    + destruct (decide (Name a = "")) as [Hn|Hn].
      { by rewrite wd_outputsLoop_noname. }
      rewrite wd_outputsLoop_cons by done.
      rewrite filter_cons_True by done. simpl.
      unfold readOf at 1. rewrite Hty.
      destruct (ToUnstructured E (Ins a)) as [ref| |]; [|done..]. simpl.
      destruct (resolve _ _ _ _ _).1; [|done..].
      intros Hrun. rewrite (IH _ _ Hrun). simpl. by rewrite <- app_assoc.
    + rewrite wd_outputsLoop_skip by done.
      rewrite filter_cons_False by done. apply IH.
Qed.

Lemma td_outputsLoop_trace E d cli ns cl xs root w root' w' :
  traitDef.outputsLoop E d cli ns cl xs root w = (Ok root', w') →
  trace w' = trace w ++
             flat_map (readOf E cli ns cl)
               (filter (λ a, Type_ a = name d) xs).
Proof.
  revert root w. induction xs as [|a xs IH]; intros root w.
  - intros [= _ ->]. by rewrite app_nil_r.
  - destruct (decide (Type_ a = name d)) as [Hty|Hty].
    + rewrite td_outputsLoop_cons by done.
      rewrite filter_cons_True by done. simpl.
      unfold readOf at 1.
      destruct (ToUnstructured E (Ins a)) as [ref| |]; [|done..]. simpl.
      destruct (resolve _ _ _ _ _).1; [|done..].
      intros Hrun. rewrite (IH _ _ Hrun). simpl. by rewrite <- app_assoc.
    + rewrite td_outputsLoop_skip by done.
      rewrite filter_cons_False by done. apply IH.
Qed.

(** X10.  A builder that returns a context has made one read per auxiliary
    it processed, in the order of the auxiliaries, after the read for the
    Base in the workload renderer; the label set of each read is made from
    the common labels, the type and the name of that auxiliary alone: the
    qualifier written for one auxiliary is not in the labels of the next. *)
Theorem X10_one_read_per_auxiliary E d ctx cli ns w root w' :
  let cl := commonLabelsOf (BaseContextLabels ctx) in
  (workloadDef.getTemplateContext E d ctx cli ns w = (Ok root, w') →
   ∃ b cw,
     base ctx = Some b ∧ ToUnstructured E b = Ok cw ∧
     trace w' =
       trace w ++
       (resolve cw cli ns (workloadLabels cl) "").2 ::
       flat_map (readOf E cli ns cl)
         (filter (λ a, Type_ a = AuxiliaryWorkload) (assists ctx))) ∧
  (traitDef.getTemplateContext E d ctx cli ns w = (Ok root, w') →
   trace w' =
     trace w ++
     flat_map (readOf E cli ns cl)
       (filter (λ a, Type_ a = name d) (assists ctx))).
Proof.
  intros cl. split.
  - rewrite wd_getTemplateContext_run.
    destruct (base ctx) as [b|]; [|done].
    destruct (ToUnstructured E b) as [cw| |] eqn:Hcw; [|done..]. simpl.
    destruct (resolve cw cli ns _ "").1 as [object| |] eqn:Hres; [|done..].
    intros Hrun. exists b, cw. split_and!; [done..|].
    rewrite (wd_outputsLoop_trace _ _ _ _ _ _ _ _ _ Hrun). simpl.
    by rewrite <- app_assoc.
  - rewrite td_getTemplateContext_run. apply td_outputsLoop_trace.
Qed.

Lemma X10_witness :
  listedLabels
    (trace (traitDef.getTemplateContext (toyEnv emptyInst) webDef
              (ctxOf [auxOf "web" "svc" "" true; auxOf "web" "ing" "" true])
              (fixedReader [livePod]) "ns" emptyWorld).2)
  = listedLabels
      (trace emptyWorld ++
       flat_map (readOf (toyEnv emptyInst) (fixedReader [livePod]) "ns"
                   (commonLabelsOf
                      (BaseContextLabels
                         (ctxOf [auxOf "web" "svc" "" true;
                                 auxOf "web" "ing" "" true]))))
         (filter (λ a, Type_ a = name webDef)
            (assists (ctxOf [auxOf "web" "svc" "" true;
                             auxOf "web" "ing" "" true])))).
Proof.
  pose (ctx := ctxOf [auxOf "web" "svc" "" true; auxOf "web" "ing" "" true]).
  pose (p := traitDef.getTemplateContext (toyEnv emptyInst) webDef ctx
               (fixedReader [livePod]) "ns" emptyWorld).
  refine (f_equal listedLabels
            (proj2 (X10_one_read_per_auxiliary (toyEnv emptyInst) webDef ctx
                      (fixedReader [livePod]) "ns" emptyWorld
                      (match p.1 with Ok r => r | _ => ∅ end) p.2) _)).
  vm_compute. reflexivity.
Defined.

(** The two listings of the example: each holds the name of its own
    auxiliary and not the name of the other. *)
Example listings_do_not_accumulate :
  listedLabels
    (trace (traitDef.getTemplateContext (toyEnv emptyInst) webDef
              (ctxOf [auxOf "web" "svc" "" true; auxOf "web" "ing" "" true])
              (fixedReader [livePod]) "ns" emptyWorld).2)
  = [ {[ oam.TraitTypeLabel := "web"; oam.TraitResource := "svc";
         oam.LabelAppName := "shop"; oam.LabelAppComponent := "web" ]};
      {[ oam.TraitTypeLabel := "web"; oam.TraitResource := "ing";
         oam.LabelAppName := "shop"; oam.LabelAppComponent := "web" ]} ].
Proof. vm_compute. reflexivity. Qed.

(** ** Health and status *)

Lemma checkHealth_no_json E root t w :
  (∀ js, Marshal E (VMap root) ≠ Ok js) →
  checkHealth E root t w = (wrapErr "json marshal template context"
                              match Marshal E (VMap root) with
                              | Ok _ => Panic
                              | Err e => Err e
                              | Panic => Panic
                              end, w).
Proof.
  intros Hno. unfold checkHealth, bind, lift.
  destruct (Marshal E (VMap root)) as [js| |]; [by destruct (Hno js)|done..].
Qed.

Lemma getStatusMessage_no_json E root t w :
  (∀ js, Marshal E (VMap root) ≠ Ok js) →
  getStatusMessage E root t w = (wrapErr "json marshal template context"
                                   match Marshal E (VMap root) with
                                   | Ok _ => Panic
                                   | Err e => Err e
                                   | Panic => Panic
                                   end, w).
Proof.
  intros Hno. unfold getStatusMessage, bind, lift.
  destruct (Marshal E (VMap root)) as [js| |]; [by destruct (Hno js)|done..].
Qed.

Lemma checkHealth_ok_iff E root t w b :
  (checkHealth E root t w).1 = Ok b ↔
  ∃ js inst,
    Marshal E (VMap root) = Ok js ∧
    Compile E ("context: " +:+ js +:+ newline +:+ t) = Ok inst ∧
    Lookup inst "isHealth" = CBool b.
Proof.
  destruct (Marshal E (VMap root)) as [js| |] eqn:Hm.
  - rewrite (checkHealth_run _ _ _ _ _ Hm). simpl.
    destruct (Compile E _) as [inst| |] eqn:Hc; simpl.
    + unfold HealthCheckPolicy. split.
      * destruct (Lookup inst "isHealth") eqn:Hf; simpl; try done.
        intros [= <-]. by exists js, inst.
      * intros (js' & inst' & [= <-] & Hc' & Hf). rewrite Hc in Hc'.
        injection Hc' as <-. by rewrite Hf.
    + split; [done|]. intros (js' & inst' & [= <-] & Hc' & _). congruence.
    + split; [done|]. intros (js' & inst' & [= <-] & Hc' & _). congruence.
  - rewrite checkHealth_no_json by congruence. rewrite Hm. simpl.
    split; [done|]. by intros (? & ? & ? & _).
  - rewrite checkHealth_no_json by congruence. rewrite Hm. simpl.
    split; [done|]. by intros (? & ? & ? & _).
Qed.

Lemma getStatusMessage_ok_iff E root t w s :
  (getStatusMessage E root t w).1 = Ok s ↔
  ∃ js inst,
    Marshal E (VMap root) = Ok js ∧
    Compile E ("context: " +:+ js +:+ newline +:+ t) = Ok inst ∧
    Lookup inst "message" = CString s.
Proof.
  destruct (Marshal E (VMap root)) as [js| |] eqn:Hm.
  - rewrite (getStatusMessage_run _ _ _ _ _ Hm). simpl.
    destruct (Compile E _) as [inst| |] eqn:Hc; simpl.
    + unfold CustomMessage. split.
      * destruct (Lookup inst "message") eqn:Hf; simpl; try done.
        intros [= <-]. by exists js, inst.
      * intros (js' & inst' & [= <-] & Hc' & Hf). rewrite Hc in Hc'.
        injection Hc' as <-. by rewrite Hf.
    + split; [done|]. intros (js' & inst' & [= <-] & Hc' & _). congruence.
    + split; [done|]. intros (js' & inst' & [= <-] & Hc' & _). congruence.
  - rewrite getStatusMessage_no_json by congruence. rewrite Hm. simpl.
    split; [done|]. by intros (? & ? & ? & _).
  - rewrite getStatusMessage_no_json by congruence. rewrite Hm. simpl.
    split; [done|]. by intros (? & ? & ? & _).
Qed.

(** What follows the builder in [HealthCheck] and [Status]. *)
Lemma after_context {A} (c : M World (gmap string value))
    (k : gmap string value → M World A) w :
  (let! tc := withMessage "get template context" c in k tc) w =
    match c w with
    | (Ok root, w1) => k root w1
    | (Err e, w1) => (Err (WithMessage e "get template context"), w1)
    | (Panic, w1) => (Panic, w1)
    end.
Proof. unfold bind, withMessage. by destruct (c w) as [[root| |] w1]. Qed.

(** X11.  With a template that is not empty, [HealthCheck] returns
    [(b, nil)] exactly when the context is built, its JSON text [js] is
    made, the source ["context: " + js + "\n" + template] compiles and binds
    [isHealth] to the boolean [b]; for the workload and for the trait
    renderer. *)
Theorem X11_HealthCheck_verdict E d ctx cli ns t w b :
  t ≠ "" →
  ((workloadDef.HealthCheck E d ctx cli ns t w).1 = Ok b ↔
   ∃ root w1 js inst,
     workloadDef.getTemplateContext E d ctx cli ns w = (Ok root, w1) ∧
     Marshal E (VMap root) = Ok js ∧
     Compile E ("context: " +:+ js +:+ newline +:+ t) = Ok inst ∧
     Lookup inst "isHealth" = CBool b) ∧
  ((traitDef.HealthCheck E d ctx cli ns t w).1 = Ok b ↔
   ∃ root w1 js inst,
     traitDef.getTemplateContext E d ctx cli ns w = (Ok root, w1) ∧
     Marshal E (VMap root) = Ok js ∧
     Compile E ("context: " +:+ js +:+ newline +:+ t) = Ok inst ∧
     Lookup inst "isHealth" = CBool b).
Proof.
  intros Ht. unfold workloadDef.HealthCheck, traitDef.HealthCheck.
  rewrite !decide_False by done. rewrite !after_context. split.
  - destruct (workloadDef.getTemplateContext E d ctx cli ns w)
      as [[root| |] w1].
    + rewrite checkHealth_ok_iff. split.
      * intros (js & inst & H). by exists root, w1, js, inst.
      * intros (root' & w1' & js & inst & [= <- <-] & H). by exists js, inst.
    + split; [done|]. by intros (? & ? & ? & ? & ? & _).
    + split; [done|]. by intros (? & ? & ? & ? & ? & _).
  - destruct (traitDef.getTemplateContext E d ctx cli ns w)
      as [[root| |] w1].
    + rewrite checkHealth_ok_iff. split.
      * intros (js & inst & H). by exists root, w1, js, inst.
      * intros (root' & w1' & js & inst & [= <- <-] & H). by exists js, inst.
    + split; [done|]. by intros (? & ? & ? & ? & ? & _).
    + split; [done|]. by intros (? & ? & ? & ? & ? & _).
Qed.

(** X12.  With a template that is not empty, [Status] returns [(s, nil)]
    exactly when the context is built, its JSON text [js] is made, the
    source ["context: " + js + "\n" + template] compiles and binds
    [message] to the string [s]; for the workload and for the trait
    renderer. *)
Theorem X12_Status_message E d ctx cli ns t w s :
  t ≠ "" →
  ((workloadDef.Status E d ctx cli ns t w).1 = Ok s ↔
   ∃ root w1 js inst,
     workloadDef.getTemplateContext E d ctx cli ns w = (Ok root, w1) ∧
     Marshal E (VMap root) = Ok js ∧
     Compile E ("context: " +:+ js +:+ newline +:+ t) = Ok inst ∧
     Lookup inst "message" = CString s) ∧
  ((traitDef.Status E d ctx cli ns t w).1 = Ok s ↔
   ∃ root w1 js inst,
     traitDef.getTemplateContext E d ctx cli ns w = (Ok root, w1) ∧
     Marshal E (VMap root) = Ok js ∧
     Compile E ("context: " +:+ js +:+ newline +:+ t) = Ok inst ∧
     Lookup inst "message" = CString s).
Proof.
  intros Ht. unfold workloadDef.Status, traitDef.Status.
  rewrite !decide_False by done. rewrite !after_context. split.
  - destruct (workloadDef.getTemplateContext E d ctx cli ns w)
      as [[root| |] w1].
    + rewrite getStatusMessage_ok_iff. split.
      * intros (js & inst & H). by exists root, w1, js, inst.
      * intros (root' & w1' & js & inst & [= <- <-] & H). by exists js, inst.
    + split; [done|]. by intros (? & ? & ? & ? & ? & _).
    + split; [done|]. by intros (? & ? & ? & ? & ? & _).
  - destruct (traitDef.getTemplateContext E d ctx cli ns w)
      as [[root| |] w1].
    + rewrite getStatusMessage_ok_iff. split.
      * intros (js & inst & H). by exists root, w1, js, inst.
      * intros (root' & w1' & js & inst & [= <- <-] & H). by exists js, inst.
    + split; [done|]. by intros (? & ? & ? & ? & ? & _).
    + split; [done|]. by intros (? & ? & ? & ? & ? & _).
Qed.

Lemma X11_witness :
  (workloadDef.HealthCheck (toyEnv emptyInst) webDef (ctxOf []) (fixedReader [])
     "ns" "isHealth: true" emptyWorld).1 = Ok true.
Proof.
  pose (p := workloadDef.getTemplateContext (toyEnv emptyInst) webDef (ctxOf [])
               (fixedReader []) "ns" emptyWorld).
  destruct (X11_HealthCheck_verdict (toyEnv emptyInst) webDef (ctxOf [])
              (fixedReader []) "ns" "isHealth: true" emptyWorld true)
    as [[_ H] _]; [discriminate|].
  apply H. exists (match p.1 with Ok r => r | _ => ∅ end), p.2, "{}".
  eexists. split_and!.
  - vm_compute. reflexivity.
  - reflexivity.
  - reflexivity.
  - reflexivity.
Defined.

Lemma X12_witness :
  (traitDef.Status (toyEnv emptyInst) webDef (ctxOf []) (fixedReader [])
     "ns" "message: ready" emptyWorld).1
  = Ok ("context: {}" +:+ newline +:+ "message: ready").
Proof.
  pose (p := traitDef.getTemplateContext (toyEnv emptyInst) webDef (ctxOf [])
               (fixedReader []) "ns" emptyWorld).
  destruct (X12_Status_message (toyEnv emptyInst) webDef (ctxOf [])
              (fixedReader []) "ns" "message: ready" emptyWorld
              ("context: {}" +:+ newline +:+ "message: ready"))
    as [_ [_ H]]; [discriminate|].
  apply H. exists (match p.1 with Ok r => r | _ => ∅ end), p.2, "{}".
  eexists. split_and!.
  - vm_compute. reflexivity.
  - reflexivity.
  - reflexivity.
  - reflexivity.
Defined.

Lemma checkHealth_trace E root t w :
  trace (checkHealth E root t w).2 = trace w ++ compiledFor E t (Ok root).
Proof.
  unfold compiledFor. destruct (Marshal E (VMap root)) as [js| |] eqn:Hm.
  - by rewrite (checkHealth_run _ _ _ _ _ Hm).
  - rewrite checkHealth_no_json by congruence. simpl. by rewrite app_nil_r.
  - rewrite checkHealth_no_json by congruence. simpl. by rewrite app_nil_r.
Qed.

Lemma getStatusMessage_trace E root t w :
  trace (getStatusMessage E root t w).2 = trace w ++ compiledFor E t (Ok root).
Proof.
  unfold compiledFor. destruct (Marshal E (VMap root)) as [js| |] eqn:Hm.
  - by rewrite (getStatusMessage_run _ _ _ _ _ Hm).
  - rewrite getStatusMessage_no_json by congruence. simpl. by rewrite app_nil_r.
  - rewrite getStatusMessage_no_json by congruence. simpl. by rewrite app_nil_r.
Qed.

(** X13.  With a template that is not empty, [HealthCheck] and [Status]
    first build the context; they compile the template once when the
    context was built and encoded, and not at all otherwise; an error of the
    builder is returned under the message "get template context".  For the
    workload and for the trait renderer. *)
Theorem X13_compiles_after_context E d ctx cli ns t w :
  t ≠ "" →
  let wr := workloadDef.getTemplateContext E d ctx cli ns w in
  let tr := traitDef.getTemplateContext E d ctx cli ns w in
  trace (workloadDef.HealthCheck E d ctx cli ns t w).2
    = trace wr.2 ++ compiledFor E t wr.1 ∧
  trace (workloadDef.Status E d ctx cli ns t w).2
    = trace wr.2 ++ compiledFor E t wr.1 ∧
  trace (traitDef.HealthCheck E d ctx cli ns t w).2
    = trace tr.2 ++ compiledFor E t tr.1 ∧
  trace (traitDef.Status E d ctx cli ns t w).2
    = trace tr.2 ++ compiledFor E t tr.1 ∧
  (∀ e, wr.1 = Err e →
     (workloadDef.HealthCheck E d ctx cli ns t w).1
       = Err (WithMessage e "get template context") ∧
     (workloadDef.Status E d ctx cli ns t w).1
       = Err (WithMessage e "get template context")) ∧
  (∀ e, tr.1 = Err e →
     (traitDef.HealthCheck E d ctx cli ns t w).1
       = Err (WithMessage e "get template context") ∧
     (traitDef.Status E d ctx cli ns t w).1
       = Err (WithMessage e "get template context")).
Proof.
  intros Ht wr tr.
  unfold workloadDef.HealthCheck, workloadDef.Status, traitDef.HealthCheck,
    traitDef.Status.
  rewrite !decide_False by done. rewrite !after_context. fold wr tr.
  destruct wr as [[root|ew|] w1], tr as [[root'|et|] w1']; simpl;
    rewrite ?checkHealth_trace, ?getStatusMessage_trace, ?app_nil_r;
    split_and!; try done; by intros ? [= <-].
Qed.

Lemma X13_witness :
  trace (workloadDef.Status (toyEnv emptyInst) webDef
           (ctxOf [auxOf AuxiliaryWorkload "" "svc-obj" true]) (fixedReader [])
           "ns" "message: ready" emptyWorld).2
  = trace (workloadDef.getTemplateContext (toyEnv emptyInst) webDef
             (ctxOf [auxOf AuxiliaryWorkload "" "svc-obj" true]) (fixedReader [])
             "ns" emptyWorld).2
    ++ compiledFor (toyEnv emptyInst) "message: ready"
         (workloadDef.getTemplateContext (toyEnv emptyInst) webDef
            (ctxOf [auxOf AuxiliaryWorkload "" "svc-obj" true]) (fixedReader [])
            "ns" emptyWorld).1.
Proof.
  destruct (X13_compiles_after_context (toyEnv emptyInst) webDef
              (ctxOf [auxOf AuxiliaryWorkload "" "svc-obj" true]) (fixedReader [])
              "ns" "message: ready" emptyWorld) as (_ & H & _).
  - discriminate.
  - exact H.
Defined.

(** X14.  When the context cannot be encoded as JSON, both evaluators return
    the error of the encoder under the message "json marshal template
    context" and compile nothing.  When the source does not compile,
    [checkHealth] returns the error of the compiler under the message
    "compile health template" and [getStatusMessage] returns it as it is. *)
Theorem X14_evaluator_errors E root t w :
  (∀ e, Marshal E (VMap root) = Err e →
     checkHealth E root t w
       = (Err (WithMessage e "json marshal template context"), w) ∧
     getStatusMessage E root t w
       = (Err (WithMessage e "json marshal template context"), w)) ∧
  (∀ js e,
     Marshal E (VMap root) = Ok js →
     Compile E ("context: " +:+ js +:+ newline +:+ t) = Err e →
     (checkHealth E root t w).1 = Err (WithMessage e "compile health template") ∧
     (getStatusMessage E root t w).1 = Err e).
Proof.
  split.
  - intros e Hm.
    rewrite checkHealth_no_json, getStatusMessage_no_json by congruence.
    by rewrite Hm.
  - intros js e Hm Hc.
    rewrite (checkHealth_run _ _ _ _ _ Hm), (getStatusMessage_run _ _ _ _ _ Hm).
    by rewrite Hc.
Qed.

Lemma X14_witness :
  (checkHealth noJsonEnv ∅ "isHealth: true" emptyWorld
     = (Err (WithMessage (ErrNew "unsupported value")
               "json marshal template context"), emptyWorld) ∧
   getStatusMessage noJsonEnv ∅ "isHealth: true" emptyWorld
     = (Err (WithMessage (ErrNew "unsupported value")
               "json marshal template context"), emptyWorld)) ∧
  ((checkHealth noCompileEnv ∅ "isHealth: " emptyWorld).1
     = Err (WithMessage (ErrNew "syntax error") "compile health template") ∧
   (getStatusMessage noCompileEnv ∅ "isHealth: " emptyWorld).1
     = Err (ErrNew "syntax error")).
Proof.
  split.
  - apply (proj1 (X14_evaluator_errors noJsonEnv ∅ "isHealth: true" emptyWorld)).
    reflexivity.
  - apply (proj2 (X14_evaluator_errors noCompileEnv ∅ "isHealth: " emptyWorld)
             "{}"); reflexivity.
Defined.

(** ** The renderers *)

(** X15.  When [AddFile] rejects one of the files (the template, the
    parameters or the base context), [Complete] returns the error of the
    first rejected file and leaves the context as it was; for the workload
    and for the trait renderer. *)
Theorem X15_rejected_file E d t ctx pre f post e :
  accepted E pre →
  AddFile E f.1 f.2 = Some e →
  (files E d "-" t ctx = pre ++ f :: post →
   workloadDef.Complete E d t ctx = (Err e, ctx)) ∧
  (files E d "f" t ctx = pre ++ f :: post →
   traitDef.Complete E d t ctx = (Err e, ctx)).
Proof.
  unfold accepted. intros Hacc Hf.
  unfold files, workloadDef.Complete, traitDef.Complete, addFile.
  split; intros Heq.
  - destruct (params d) as [p|]; simpl in Heq;
      destruct pre as [|p1 [|p2 [|p3 pre]]]; simplify_eq/=; rejected_file;
      by destruct pre.
  - destruct (params d) as [p|]; simpl in Heq;
      destruct pre as [|p1 [|p2 [|p3 pre]]]; simplify_eq/=; rejected_file;
      by destruct pre.
Qed.

Lemma X15_witness :
  workloadDef.Complete rejectingEnv webDef "}" priorCtx
    = (Err (ErrNew "expected declaration"), priorCtx) ∧
  traitDef.Complete rejectingEnv webDef "}" priorCtx
    = (Err (ErrNew "expected declaration"), priorCtx).
Proof.
  destruct (X15_rejected_file rejectingEnv webDef "}" priorCtx []
              ("-", "}") [("-", BaseContextFile priorCtx)]
              (ErrNew "expected declaration")) as [Hwd _].
  - constructor.
  - reflexivity.
  - destruct (X15_rejected_file rejectingEnv webDef "}" priorCtx []
                ("-", "}") [("f", BaseContextFile priorCtx)]
                (ErrNew "expected declaration")) as [_ Htd].
    + constructor.
    + reflexivity.
    + split; [apply Hwd|apply Htd]; reflexivity.
Defined.

(** X16.  When the built instance has an evaluation error, [Complete]
    returns it under the message "workloadDef <name> eval" (workload
    renderer) or "traitDef <name> build" (trait renderer) and leaves the
    context as it was. *)
Theorem X16_evaluation_error E d t ctx err :
  (accepted E (files E d "-" t ctx) →
   InstErr (Build E (files E d "-" t ctx)) = Some err →
   workloadDef.Complete E d t ctx =
     (Err (WithMessage err ("workloadDef " +:+ name d +:+ " eval")), ctx)) ∧
  (accepted E (files E d "f" t ctx) →
   InstErr (Build E (files E d "f" t ctx)) = Some err →
   traitDef.Complete E d t ctx =
     (Err (WithMessage err ("traitDef " +:+ name d +:+ " build")), ctx)).
Proof.
  split; intros Hacc Herr.
  - rewrite (wd_Complete_accepted _ _ _ _ Hacc), wd_completeInsts_one.
    unfold workloadDef.completeInst. by rewrite Herr.
  - rewrite (td_Complete_accepted _ _ _ _ Hacc), td_completeInsts_one.
    unfold traitDef.completeInst. by rewrite Herr.
Qed.

Lemma X16_witness :
  workloadDef.Complete (toyEnv conflictInst) webDef "template" priorCtx
    = (Err (WithMessage (ErrNew "conflicting values") "workloadDef web eval"),
       priorCtx).
Proof.
  apply (proj1 (X16_evaluation_error (toyEnv conflictInst) webDef "template"
                  priorCtx (ErrNew "conflicting values"))).
  - repeat constructor.
  - reflexivity.
Defined.

(** X17.  The workload renderer needs an [output]: when the [output] field
    of the evaluated template cannot be wrapped as a Base, [Complete] returns
    the error under the message "workloadDef <name> new base" and leaves the
    context as it was, the Base included. *)
Theorem X17_workload_needs_output E d t ctx e :
  accepted E (files E d "-" t ctx) →
  InstErr (Build E (files E d "-" t ctx)) = None →
  NewBase E (Lookup (Build E (files E d "-" t ctx)) "output") = Err e →
  workloadDef.Complete E d t ctx =
    (Err (WithMessage e ("workloadDef " +:+ name d +:+ " new base")), ctx).
Proof.
  intros Hacc Herr Hb.
  rewrite (wd_Complete_accepted _ _ _ _ Hacc), wd_completeInsts_one.
  unfold workloadDef.completeInst. rewrite Herr.
  unfold bind, lift, OutputFieldName. by rewrite Hb.
Qed.

Lemma X17_witness :
  workloadDef.Complete (noBaseEnv emptyInst) webDef "template" priorCtx
    = (Err (WithMessage (ErrNew "value does not exist") "workloadDef web new base"),
       priorCtx).
Proof.
  apply (X17_workload_needs_output (noBaseEnv emptyInst) webDef "template"
           priorCtx (ErrNew "value does not exist")).
  - repeat constructor.
  - reflexivity.
  - reflexivity.
Defined.

(** X18.  A render of the workload renderer that fails on a field of
    [outputs] is not undone: the Base is already the wrapped [output] and
    the fields before the failing one are already registered as
    auxiliaries. *)
Theorem X18_failure_keeps_effects E d t ctx b st pre f post e :
  accepted E (files E d "-" t ctx) →
  InstErr (Build E (files E d "-" t ctx)) = None →
  NewBase E (Lookup (Build E (files E d "-" t ctx)) "output") = Ok b →
  Lookup (Build E (files E d "-" t ctx)) "outputs" = CStruct st →
  st = pre ++ f :: post →
  wrappable E pre →
  skipped f = false →
  NewOther E (fiValue f) = Err e →
  ∃ auxs,
    (workloadDef.Complete E d t ctx).2 = withAssists (SetBase b ctx) auxs ∧
    registers E AuxiliaryWorkload pre auxs.
Proof.
  intros Hacc Herr Hb Hst -> Hw Hs He.
  rewrite (wd_Complete_accepted _ _ _ _ Hacc), wd_completeInsts_one.
  rewrite (wd_completeInst_run _ _ _ _ b Herr Hb).
  unfold OutputsFieldName. rewrite Hst. simpl.
  destruct (registerFields_fail E AuxiliaryWorkload (wdMsg d) pre f post e
              (SetBase b ctx) Hw Hs He) as (auxs & -> & Hreg).
  by exists auxs.
Qed.

Lemma X18_witness :
  ∃ auxs,
    (workloadDef.Complete (toyEnv (instOf badFields)) webDef "template"
       priorCtx).2
      = withAssists (SetBase {| insValue := CString "web" |} priorCtx) auxs ∧
    registers (toyEnv (instOf badFields)) AuxiliaryWorkload
      [plain "svc" "svc-obj"] auxs.
Proof.
  apply (X18_failure_keeps_effects (toyEnv (instOf badFields)) webDef "template"
           priorCtx {| insValue := CString "web" |} badFields
           [plain "svc" "svc-obj"]
           {| fiName := "broken"; IsDefinition := false; IsHidden := false;
              IsOptional := false; fiValue := CScalar "bad" |}
           [plain "cm" "cm-obj"] (ErrNew "cannot wrap")); try reflexivity.
  - repeat constructor.
  - unfold wrappable, kept. simpl. constructor; [by eexists|constructor].
Defined.

(** X19.  When the [outputs] field of the evaluated template is missing or
    is not a struct, the workload renderer installs the Base and registers
    no auxiliary. *)
Theorem X19_workload_without_outputs E d t ctx b :
  accepted E (files E d "-" t ctx) →
  InstErr (Build E (files E d "-" t ctx)) = None →
  NewBase E (Lookup (Build E (files E d "-" t ctx)) "output") = Ok b →
  (∀ st, Lookup (Build E (files E d "-" t ctx)) "outputs" ≠ CStruct st) →
  workloadDef.Complete E d t ctx = (Ok tt, SetBase b ctx).
Proof.
  intros Hacc Herr Hb Hno.
  rewrite (wd_Complete_accepted _ _ _ _ Hacc), wd_completeInsts_one.
  rewrite (wd_completeInst_run _ _ _ _ b Herr Hb). unfold OutputsFieldName.
  destruct (Lookup _ "outputs") as [| | | |st]; simpl; try done.
  by destruct (Hno st).
Qed.

Lemma X19_witness :
  workloadDef.Complete (toyEnv outputOnlyInst) webDef "template" priorCtx
    = (Ok tt, SetBase {| insValue := CString "web" |} priorCtx).
Proof.
  apply (X19_workload_without_outputs (toyEnv outputOnlyInst) webDef "template"
           priorCtx {| insValue := CString "web" |}).
  - repeat constructor.
  - reflexivity.
  - reflexivity.
  - intros st. discriminate.
Defined.

(** X20.  A trait template without [processing], [output], [outputs] and
    [patch] renders to nothing: [Complete] returns nil and the context is as
    it was. *)
Theorem X20_trait_empty_template E d t ctx :
  accepted E (files E d "f" t ctx) →
  InstErr (Build E (files E d "f" t ctx)) = None →
  ValueExists (Lookup (Build E (files E d "f" t ctx)) "processing") = false →
  ValueExists (Lookup (Build E (files E d "f" t ctx)) "output") = false →
  (∀ st, Lookup (Build E (files E d "f" t ctx)) "outputs" ≠ CStruct st) →
  ValueExists (Lookup (Build E (files E d "f" t ctx)) "patch") = false →
  traitDef.Complete E d t ctx = (Ok tt, ctx).
Proof.
  intros Hacc Herr Hproc Hout Houts Hpatch.
  rewrite (td_Complete_accepted _ _ _ _ Hacc), td_completeInsts_one.
  set (inst := Build E (files E d "f" t ctx)) in *.
  rewrite (td_completeInst_run _ _ _ inst _ Herr)
    by (unfold traitDef.processStep; by rewrite Hproc).
  unfold bind. rewrite td_outputStep_run. unfold OutputFieldName.
  rewrite Hout. unfold traitDef.outputsStep, OutputsFieldName.
  destruct (Lookup inst "outputs") as [| | | |st] eqn:Hst; simpl;
    try (unfold traitDef.patchStep, PatchFieldName; by rewrite Hpatch).
  by destruct (Houts st).
Qed.

Lemma X20_witness :
  traitDef.Complete (toyEnv emptyInst) webDef "template" priorCtx
    = (Ok tt, priorCtx).
Proof.
  apply (X20_trait_empty_template (toyEnv emptyInst) webDef "template" priorCtx);
    try reflexivity.
  - repeat constructor.
  - intros st. discriminate.
Defined.

(** X21.  A render of the trait renderer that returns nil for a template
    with a [patch] field found a Base in the context, wrapped the patch, and
    left as the Base what the unification of the two returns. *)
Theorem X21_trait_patch_unifies E d t ctx inst :
  (traitDef.Complete E d t ctx).1 = Ok tt →
  (traitDef.processStep E d (Build E (files E d "f" t ctx)) ctx).1 = Ok inst →
  ValueExists (Lookup inst "patch") = true →
  ∃ b p b',
    base ctx = Some b ∧
    NewOther E (Lookup inst "patch") = Ok p ∧
    Unify E b p = Ok b' ∧
    base (traitDef.Complete E d t ctx).2 = Some b'.
Proof.
  intros Hok Hp Hpatch.
  pose proof (td_Complete_ok_accepted _ _ _ _ Hok) as Hacc. revert Hok.
  rewrite (td_Complete_accepted _ _ _ _ Hacc), td_completeInsts_one.
  set (inst0 := Build E (files E d "f" t ctx)) in *.
  destruct (InstErr inst0) as [e|] eqn:He.
  { unfold traitDef.completeInst. by rewrite He. }
  rewrite (td_completeInst_run _ _ _ inst _ He Hp). unfold bind.
  pose proof (td_outputStep_base E d inst ctx) as Hb1.
  destruct (traitDef.outputStep E d inst ctx) as [[[]| |] c1]; [|done..].
  pose proof (td_outputsStep_base E d inst c1) as Hb2.
  destruct (traitDef.outputsStep E d inst c1) as [[[]| |] c2]; [|done..].
  simpl in Hb1, Hb2.
  unfold traitDef.patchStep, PatchFieldName. rewrite Hpatch.
  unfold bind, gets, lift, modify. simpl.
  destruct (NewOther E (Lookup inst "patch")) as [p| |] eqn:Hno; simpl; [|done..].
  rewrite Hb2, Hb1.
  destruct (base ctx) as [b|]; [|done].
  destruct (Unify E b p) as [b'| |] eqn:Hu; simpl; [|done..].
  intros _. by exists b, p, b'.
Qed.

Lemma X21_witness :
  ∃ b p b',
    base priorCtx = Some b ∧
    NewOther (toyEnv patchInst) (Lookup patchInst "patch") = Ok p ∧
    Unify (toyEnv patchInst) b p = Ok b' ∧
    base (traitDef.Complete (toyEnv patchInst) webDef "template" priorCtx).2
      = Some b'.
Proof.
  apply (X21_trait_patch_unifies (toyEnv patchInst) webDef "template" priorCtx
           patchInst); reflexivity.
Defined.

Lemma grows_refl P c : grows P c c.
Proof.
  split_and!; [done..|]. exists []. by rewrite app_nil_r.
Qed.

Lemma grows_trans P c1 c2 c3 : grows P c1 c2 → grows P c2 c3 → grows P c1 c3.
Proof.
  intros (Hf1 & Hl1 & xs & Hx & HPx) (Hf2 & Hl2 & ys & Hy & HPy).
  split_and!; [congruence..|]. exists (xs ++ ys). split.
  - by rewrite Hy, Hx, app_assoc.
  - by apply Forall_app.
Qed.

Lemma grows_SetBase P b c : grows P c (SetBase b c).
Proof.
  split_and!; [done..|]. exists []. by rewrite app_nil_r.
Qed.

Lemma grows_PutAuxiliaries (P : Auxiliary → Prop) a c :
  P a → grows P c (PutAuxiliaries a c).
Proof.
  intros Ha. split_and!; [done..|]. exists [a]. split; [done|].
  by constructor.
Qed.

Lemma registerFields_grows E ty msg st ctx :
  grows (λ a, Type_ a = ty ∧ IsOutputs a = true) ctx
    (registerFields E ty msg st ctx).2.
Proof.
  revert ctx. induction st as [|f st IH]; intros ctx; simpl.
  - apply grows_refl.
  - destruct (skipped f); [apply IH|].
    unfold bind at 1, lift.
    destruct (NewOther E (fiValue f)) as [i| |]; simpl; try apply grows_refl.
    unfold bind at 1, modify.
    eapply grows_trans; [|apply IH]. by apply grows_PutAuxiliaries.
Qed.

Lemma grows_weaken (P Q : Auxiliary → Prop) c c' :
  (∀ a, P a → Q a) → grows P c c' → grows Q c c'.
Proof.
  intros HPQ (Hf & Hl & xs & Hx & HP).
  split_and!; [done..|]. exists xs. split; [done|].
  by eapply Forall_impl.
Qed.

Lemma wd_Complete_state E d t ctx :
  (workloadDef.Complete E d t ctx).2 = ctx ∨
  workloadDef.Complete E d t ctx =
    workloadDef.completeInst E d (Build E (files E d "-" t ctx)) ctx.
Proof.
  destruct (AddFile E "-" t) as [e1|] eqn:H1.
  { left. unfold workloadDef.Complete, addFile, bind, lift. by rewrite H1. }
  destruct (params d) as [p|] eqn:Hp.
  - destruct (AddFile E "parameter" (parameterFile E p)) as [e2|] eqn:H2.
    { left. unfold workloadDef.Complete, addFile, bind, lift.
      rewrite H1, Hp. simpl. by rewrite H2. }
    destruct (AddFile E "-" (BaseContextFile ctx)) as [e3|] eqn:H3.
    { left. unfold workloadDef.Complete, addFile, bind, lift, gets.
      rewrite H1, Hp. simpl. rewrite H2. simpl. by rewrite H3. }
    right. rewrite wd_Complete_accepted, wd_completeInsts_one; [done|].
    unfold accepted, files. rewrite Hp. by repeat constructor.
  - destruct (AddFile E "-" (BaseContextFile ctx)) as [e3|] eqn:H3.
    { left. unfold workloadDef.Complete, addFile, bind, lift, gets, ret.
      rewrite H1, Hp. simpl. by rewrite H3. }
    right. rewrite wd_Complete_accepted, wd_completeInsts_one; [done|].
    unfold accepted, files. rewrite Hp. by repeat constructor.
Qed.

Lemma td_Complete_state E d t ctx :
  (traitDef.Complete E d t ctx).2 = ctx ∨
  traitDef.Complete E d t ctx =
    traitDef.completeInst E d (Build E (files E d "f" t ctx)) ctx.
Proof.
  destruct (AddFile E "-" t) as [e1|] eqn:H1.
  { left. unfold traitDef.Complete, addFile, bind, lift. by rewrite H1. }
  destruct (params d) as [p|] eqn:Hp.
  - destruct (AddFile E "parameter" (parameterFile E p)) as [e2|] eqn:H2.
    { left. unfold traitDef.Complete, addFile, bind, lift.
      rewrite H1, Hp. simpl. by rewrite H2. }
    destruct (AddFile E "f" (BaseContextFile ctx)) as [e3|] eqn:H3.
    { left. unfold traitDef.Complete, addFile, bind, lift, gets.
      rewrite H1, Hp. simpl. rewrite H2. simpl. by rewrite H3. }
    right. rewrite td_Complete_accepted, td_completeInsts_one; [done|].
    unfold accepted, files. rewrite Hp. by repeat constructor.
  - destruct (AddFile E "f" (BaseContextFile ctx)) as [e3|] eqn:H3.
    { left. unfold traitDef.Complete, addFile, bind, lift, gets, ret.
      rewrite H1, Hp. simpl. by rewrite H3. }
    right. rewrite td_Complete_accepted, td_completeInsts_one; [done|].
    unfold accepted, files. rewrite Hp. by repeat constructor.
Qed.

Lemma td_patchStep_grows P E d inst c :
  grows P c (traitDef.patchStep E d inst c).2.
Proof.
  unfold traitDef.patchStep. destruct (ValueExists _); [|apply grows_refl].
  unfold bind at 1, gets. simpl. unfold bind at 1, lift.
  destruct (NewOther E _); simpl; try apply grows_refl.
  destruct (base c); [|apply grows_refl]. unfold bind, lift, modify.
  destruct (Unify E _ _); simpl; try apply grows_refl. apply grows_SetBase.
Qed.

(** X22.  Whatever it returns, [Complete] only adds to the auxiliaries of
    the context: those that were there stay, in their order, and the file and
    the labels of the base context are not changed.  The workload renderer
    adds auxiliaries of type [AuxiliaryWorkload] marked as outputs; the trait
    renderer adds auxiliaries of the type of the trait. *)
Theorem X22_auxiliaries_only_grow E d t ctx :
  grows (λ a, Type_ a = AuxiliaryWorkload ∧ IsOutputs a = true) ctx
    (workloadDef.Complete E d t ctx).2 ∧
  grows (λ a, Type_ a = name d) ctx (traitDef.Complete E d t ctx).2.
Proof.
  split.
  - destruct (wd_Complete_state E d t ctx) as [->| ->]; [apply grows_refl|].
    set (inst := Build E (files E d "-" t ctx)).
    unfold workloadDef.completeInst.
    destruct (InstErr inst); [apply grows_refl|].
    unfold bind at 1, lift.
    destruct (NewBase E _) as [b| |]; simpl; try apply grows_refl.
    unfold bind at 1, modify.
    eapply grows_trans; [apply (grows_SetBase _ b)|].
    destruct (ValueStruct _); try apply grows_refl.
    rewrite wd_outputsFields_eq. apply registerFields_grows.
  - destruct (td_Complete_state E d t ctx) as [->| ->]; [apply grows_refl|].
    set (inst0 := Build E (files E d "f" t ctx)).
    unfold traitDef.completeInst.
    destruct (InstErr inst0); [apply grows_refl|].
    unfold bind at 1.
    pose proof (td_processStep_state E d inst0 ctx) as Hs.
    destruct (traitDef.processStep E d inst0 ctx) as [[inst| |] c0];
      simpl in Hs; subst c0; try apply grows_refl.
    unfold bind at 1. rewrite td_outputStep_run.
    assert (Hstep : ∀ c, grows (λ a, Type_ a = name d) c
              ((let! _ := traitDef.outputsStep E d inst in
                traitDef.patchStep E d inst) c).2).
    { intros c. unfold bind.
      assert (Hg : grows (λ a, Type_ a = name d) c
                     (traitDef.outputsStep E d inst c).2).
      { unfold traitDef.outputsStep.
        destruct (ValueStruct _); try apply grows_refl.
        rewrite td_outputsFields_eq.
        eapply grows_weaken; [|apply registerFields_grows]. by intros ? [? _]. }
      destruct (traitDef.outputsStep E d inst c) as [[[]| |] c2]; simpl in *;
        try done.
      eapply grows_trans; [exact Hg|apply td_patchStep_grows]. }
    destruct (ValueExists _); [|apply Hstep].
    destruct (NewOther E _) as [other| |]; try apply grows_refl.
    eapply grows_trans; [|apply Hstep].
    split_and!; [done..|]. eexists [_]. split; [done|]. by constructor.
Qed.

(** X23.  An engine made by [NewWorkloadAbstractEngine] or
    [NewTraitAbstractEngine] has no parameters: [Complete] builds the
    template and the base context, in that order.  After [Params] with
    parameters, [Complete] builds a third file between the two, named
    "parameter", that holds "parameter: " and the JSON text of the
    parameters; when the parameters cannot be encoded the error is dropped
    and the file holds "parameter: " alone. *)
Theorem X23_parameters_file E nm p t ctx :
  let js := match Marshal E p with Ok bt => bt | _ => "" end in
  let wd := NewWorkloadAbstractEngine nm in
  let td := NewTraitAbstractEngine nm in
  (accepted E [("-", t); ("-", BaseContextFile ctx)] →
   workloadDef.Complete E wd t ctx =
     workloadDef.completeInst E wd
       (Build E [("-", t); ("-", BaseContextFile ctx)]) ctx) ∧
  (accepted E [("-", t); ("parameter", "parameter: " +:+ js);
               ("-", BaseContextFile ctx)] →
   workloadDef.Complete E (Params (Some p) wd) t ctx =
     workloadDef.completeInst E (Params (Some p) wd)
       (Build E [("-", t); ("parameter", "parameter: " +:+ js);
                 ("-", BaseContextFile ctx)]) ctx) ∧
  (accepted E [("-", t); ("f", BaseContextFile ctx)] →
   traitDef.Complete E td t ctx =
     traitDef.completeInst E td
       (Build E [("-", t); ("f", BaseContextFile ctx)]) ctx) ∧
  (accepted E [("-", t); ("parameter", "parameter: " +:+ js);
               ("f", BaseContextFile ctx)] →
   traitDef.Complete E (Params (Some p) td) t ctx =
     traitDef.completeInst E (Params (Some p) td)
       (Build E [("-", t); ("parameter", "parameter: " +:+ js);
                 ("f", BaseContextFile ctx)]) ctx).
Proof.
  intros js wd td. split_and!; intros Hacc.
  - by rewrite (wd_Complete_accepted E wd t ctx Hacc), wd_completeInsts_one.
  - by rewrite (wd_Complete_accepted E (Params (Some p) wd) t ctx Hacc),
      wd_completeInsts_one.
  - by rewrite (td_Complete_accepted E td t ctx Hacc), td_completeInsts_one.
  - by rewrite (td_Complete_accepted E (Params (Some p) td) t ctx Hacc),
      td_completeInsts_one.
Qed.

Lemma X23_witness :
  workloadDef.Complete noJsonEnv
    (Params (Some (VStr "image")) (NewWorkloadAbstractEngine "web"))
    "template" priorCtx
  = workloadDef.completeInst noJsonEnv
      (Params (Some (VStr "image")) (NewWorkloadAbstractEngine "web"))
      (Build noJsonEnv [("-", "template"); ("parameter", "parameter: ");
                        ("-", "")])
      priorCtx.
Proof.
  apply (proj1 (proj2 (X23_parameters_file noJsonEnv "web" (VStr "image")
                         "template" priorCtx))).
  repeat constructor.
Defined.

(** X24.  When the evaluated trait template has a [processing] field, the
    instance goes through the pre-processing: its failure makes [Complete]
    return the error under the message "traitDef <name> build" with the
    context as it was; after its success [output], [outputs] and [patch] are
    looked up in the instance it returns, not in the evaluated one. *)
Theorem X24_trait_processing E d t ctx :
  accepted E (files E d "f" t ctx) →
  InstErr (Build E (files E d "f" t ctx)) = None →
  ValueExists (Lookup (Build E (files E d "f" t ctx)) "processing") = true →
  (∀ e, Process E (Build E (files E d "f" t ctx)) = Err e →
     traitDef.Complete E d t ctx =
       (Err (WithMessage e ("traitDef " +:+ name d +:+ " build")), ctx)) ∧
  (∀ inst, Process E (Build E (files E d "f" t ctx)) = Ok inst →
     traitDef.Complete E d t ctx =
       (let! _ := traitDef.outputStep E d inst in
        let! _ := traitDef.outputsStep E d inst in
        traitDef.patchStep E d inst) ctx).
Proof.
  intros Hacc Herr Hproc.
  rewrite (td_Complete_accepted _ _ _ _ Hacc), td_completeInsts_one.
  set (inst0 := Build E (files E d "f" t ctx)) in *. split.
  - intros e He. unfold traitDef.completeInst. rewrite Herr.
    unfold bind at 1, traitDef.processStep, lift. rewrite Hproc, He. done.
  - intros inst Hi. apply td_completeInst_run; [done|].
    unfold traitDef.processStep, lift. by rewrite Hproc, Hi.
Qed.

Lemma X24_witness :
  traitDef.Complete noProcessEnv webDef "template" priorCtx
    = (Err (WithMessage (ErrNew "request failed") "traitDef web build"),
       priorCtx).
Proof.
  apply (proj1 (X24_trait_processing noProcessEnv webDef "template" priorCtx
                  ltac:(repeat constructor) eq_refl eq_refl)).
  reflexivity.
Defined.

(** ** The builders and failures *)

(** X25.  The builders stop at the first auxiliary that fails: when the
    Base and the auxiliaries before it are processed, an auxiliary whose
    instance has no unstructured form, or whose resolution fails, makes the
    builder return that error as it is; the auxiliaries after it are not
    read. *)
Theorem X25_builder_stops_at_first_failure
    E d ctx cli ns w pre a post r1 w1 e :
  assists ctx = pre ++ a :: post →
  let cl := commonLabelsOf (BaseContextLabels ctx) in
  (Type_ a = AuxiliaryWorkload →
   Name a ≠ "" →
   workloadDef.getTemplateContext E d (setAssists ctx pre) cli ns w
     = (Ok r1, w1) →
   (ToUnstructured E (Ins a) = Err e →
    workloadDef.getTemplateContext E d ctx cli ns w = (Err e, w1)) ∧
   (∀ ref,
      ToUnstructured E (Ins a) = Ok ref →
      let lbls := qualified (traitLabels AuxiliaryWorkload cl) (Name a) in
      (resolve ref cli ns lbls (Name a)).1 = Err e →
      workloadDef.getTemplateContext E d ctx cli ns w
        = (Err e, after w1 lbls (resolve ref cli ns lbls (Name a)).2))) ∧
  (Type_ a = name d →
   traitDef.getTemplateContext E d (setAssists ctx pre) cli ns w
     = (Ok r1, w1) →
   (ToUnstructured E (Ins a) = Err e →
    traitDef.getTemplateContext E d ctx cli ns w = (Err e, w1)) ∧
   (∀ ref,
      ToUnstructured E (Ins a) = Ok ref →
      let lbls := qualified (traitLabels (name d) cl) (Name a) in
      (resolve ref cli ns lbls (Name a)).1 = Err e →
      traitDef.getTemplateContext E d ctx cli ns w
        = (Err e, after w1 lbls (resolve ref cli ns lbls (Name a)).2))).
Proof.
  intros Hassists cl. split.
  - intros Hty Hn Hpre.
    assert (Hrun : workloadDef.getTemplateContext E d ctx cli ns w =
              workloadDef.outputsLoop E cli ns cl (a :: post) r1 w1).
    { rewrite <- (setAssists_id ctx) at 1. rewrite Hassists.
      rewrite wd_getTemplateContext_app. unfold bind. by rewrite Hpre. }
    rewrite Hrun, wd_outputsLoop_cons by done. split.
    + by intros ->.
    + intros ref -> lbls Hres. simpl. fold lbls. by rewrite Hres.
  - intros Hty Hpre.
    assert (Hrun : traitDef.getTemplateContext E d ctx cli ns w =
              traitDef.outputsLoop E d cli ns cl (a :: post) r1 w1).
    { rewrite td_getTemplateContext_run in Hpre |- *. simpl in Hpre.
      rewrite Hassists, td_outputsLoop_app. unfold bind.
      by rewrite Hpre. }
    rewrite Hrun, td_outputsLoop_cons by done. split.
    + by intros ->.
    + intros ref -> lbls Hres. simpl. rewrite Hty. fold lbls. by rewrite Hres.
Qed.

Lemma X25_witness :
  (workloadDef.getTemplateContext (toyEnv emptyInst) webDef
     (ctxOf [auxOf AuxiliaryWorkload "svc" "missing" true;
             auxOf AuxiliaryWorkload "ing" "ing-obj" true])
     (fixedReader []) "ns" emptyWorld).1
  = Err (ErrNew "not found").
Proof.
  pose (ctx := ctxOf [auxOf AuxiliaryWorkload "svc" "missing" true;
                      auxOf AuxiliaryWorkload "ing" "ing-obj" true]).
  pose (p := workloadDef.getTemplateContext (toyEnv emptyInst) webDef
               (setAssists ctx []) (fixedReader []) "ns" emptyWorld).
  destruct (X25_builder_stops_at_first_failure (toyEnv emptyInst) webDef ctx
              (fixedReader []) "ns" emptyWorld []
              (auxOf AuxiliaryWorkload "svc" "missing" true)
              [auxOf AuxiliaryWorkload "ing" "ing-obj" true]
              (match p.1 with Ok r => r | _ => ∅ end) p.2
              (ErrNew "not found") eq_refl) as [Hwd _].
  destruct Hwd as [_ Hres].
  - reflexivity.
  - discriminate.
  - vm_compute. reflexivity.
  - refine (f_equal fst (Hres (pod "missing" ∅ "missing") eq_refl _)).
    reflexivity.
Defined.
